(** * TurboMiner scope table: the data model and the bulk actions of the view

    A shallow embedding of [turbodataminer/ui/scoping/scopetable.py]:
    the table model [BaseScopeDataModel] (header, rows, cached counts and
    the notifications it fires) and the context-menu actions of
    [ScopeTable] that rewrite the leading "Process" column. *)

From Stdlib Require Import ZArith String List Lia Floats.
From stdpp Require Import base list numbers strings.

Local Open Scope Z_scope.

(** ** Python values and library primitives *)

(** The cells of a row hold arbitrary Python objects.  The classes that
    [get_type_at] tells apart are kept as separate constructors; any other
    object is [VOther], carrying the name of its class and the truth value
    its [__nonzero__] or [__len__] gives. *)
Inductive value : Type :=
| VBool (b : bool)
| VFloat (f : float)
| VInt (z : Z)
| VStr (s : string)
| VNone
| VOther (class_name : string) (truth : bool).

(** The built-in classes used as second argument of [isinstance]. *)
Inductive builtin_class : Type := bool_ | float_ | int_.

(** [isinstance(value, cls)] for a built-in class.  [bool] is a subclass of
    [int], so a boolean is an instance of both. *)
Definition isinstance (v : value) (cls : builtin_class) : bool :=
  match cls, v with
  | bool_, VBool _ => true
  | float_, VFloat _ => true
  | int_, VInt _ => true
  | int_, VBool _ => true
  | _, _ => false
  end.

(** Truth value of an object, as [not value] tests it. *)
Definition truthy (v : value) : bool :=
  match v with
  | VBool b => b
  | VFloat f => negb (PrimFloat.eqb f 0%float)
  | VInt z => negb (z =? 0)
  | VStr s => negb (String.eqb s EmptyString)
  | VNone => false
  | VOther _ t => t
  end.

Definition py_not (v : value) : value := VBool (negb (truthy v)).

(** The classes of [java.lang] the module hands to the table as column
    types. *)
Module Java.
Inductive class : Type := String | Boolean | Float | Integer | Double.
End Java.

Inductive exn : Type := IndexError | TypeError | NameError.

(** Result of evaluating an expression that may raise. *)
Inductive result (A : Type) : Type :=
| Val (a : A)
| Exc (e : exn).
Arguments Val {A} a.
Arguments Exc {A} e.

Definition len {A : Type} (l : list A) : Z := Z.of_nat (length l).

(** Position denoted by a Python index in a sequence of [n] items:
    non-negative indices count from the front, negative ones from the back. *)
Definition py_index (n : nat) (i : Z) : option nat :=
  if 0 <=? i then
    if i <? Z.of_nat n then Some (Z.to_nat i) else None
  else
    if - Z.of_nat n <=? i then Some (Z.to_nat (Z.of_nat n + i)) else None.

(** [l[i]] *)
Definition py_getitem {A : Type} (l : list A) (i : Z) : result A :=
  match py_index (length l) i with
  | Some k => match l !! k with Some x => Val x | None => Exc IndexError end
  | None => Exc IndexError
  end.

(** [l[i] = x] *)
Definition py_setitem {A : Type} (l : list A) (i : Z) (x : A) : result (list A) :=
  match py_index (length l) i with
  | Some k => Val (<[k := x]> l)
  | None => Exc IndexError
  end.

(** [range(lo, hi)] *)
Definition range (lo hi : Z) : list Z :=
  map (fun k : nat => lo + Z.of_nat k) (seq 0 (Z.to_nat (hi - lo))).

(** ** The state of a [BaseScopeDataModel] object *)

(** Notifications sent to the listeners of the [AbstractTableModel]. *)
Inductive event : Type :=
| TableStructureChanged
| TableRowsInserted (first_row last_row : Z)
| TableCellUpdated (row column : Z).

Record BaseScopeDataModel : Type := mkModel {
  _header : list string;
  _content : list (list value);
  _column_count : Z;
  _row_count : Z;
  fired : list event
}.

(** ** Methods run in a state and exception monad over the object *)

Inductive outcome (A : Type) : Type :=
| Ok (a : A) (self : BaseScopeDataModel)
| Raise (e : exn) (self : BaseScopeDataModel).
Arguments Ok {A} a self.
Arguments Raise {A} e self.

Definition M (A : Type) : Type := BaseScopeDataModel -> outcome A.

Definition ret {A : Type} (a : A) : M A := fun self => Ok a self.

Definition bind {A B : Type} (c : M A) (k : A -> M B) : M B :=
  fun self =>
    match c self with
    | Ok a self' => k a self'
    | Raise e self' => Raise e self'
    end.

Definition raise {A : Type} (e : exn) : M A := fun self => Raise e self.

Definition lift {A : Type} (r : result A) : M A :=
  match r with
  | Val a => ret a
  | Exc e => raise e
  end.

(** [try: body  except: handler] with a bare [except]. *)
Definition try_except {A : Type} (body : M A) (handler : M A) : M A :=
  fun self =>
    match body self with
    | Ok a self' => Ok a self'
    | Raise _ self' => handler self'
    end.

Definition gets {A : Type} (f : BaseScopeDataModel -> A) : M A :=
  fun self => Ok (f self) self.

Definition modify (f : BaseScopeDataModel -> BaseScopeDataModel) : M unit :=
  fun self => Ok tt (f self).

Declare Scope py_scope.
Delimit Scope py_scope with py.
Notation "x <- c ;; k" := (bind c (fun x => k))
  (at level 100, c at next level, right associativity) : py_scope.
Notation "c ;; k" := (bind c (fun _ => k))
  (at level 100, right associativity) : py_scope.
Local Open Scope py_scope.

(** [for x in xs: body] *)
Fixpoint for_ {X : Type} (xs : list X) (body : X -> M unit) : M unit :=
  match xs with
  | [] => ret tt
  | x :: rest => body x ;; for_ rest body
  end.

(** Attribute assignments. *)
Definition set__header (h : list string) : M unit :=
  modify (fun s => mkModel h (_content s) (_column_count s) (_row_count s) (fired s)).
Definition set__content (c : list (list value)) : M unit :=
  modify (fun s => mkModel (_header s) c (_column_count s) (_row_count s) (fired s)).
Definition set__column_count (n : Z) : M unit :=
  modify (fun s => mkModel (_header s) (_content s) n (_row_count s) (fired s)).
Definition set__row_count (n : Z) : M unit :=
  modify (fun s => mkModel (_header s) (_content s) (_column_count s) n (fired s)).

(** The [fireTable...] methods inherited from [AbstractTableModel]: the
    notification is recorded, most recent last. *)
Definition fire (e : event) : M unit :=
  modify (fun s => mkModel (_header s) (_content s) (_column_count s) (_row_count s)
                           (fired s ++ [e])).
Definition fireTableStructureChanged : M unit := fire TableStructureChanged.
Definition fireTableRowsInserted (first_row last_row : Z) : M unit :=
  fire (TableRowsInserted first_row last_row).
Definition fireTableCellUpdated (row column : Z) : M unit :=
  fire (TableCellUpdated row column).

(** ** [BaseScopeDataModel] *)

(** The loop shared by [__init__] and [set_content]:
    [row = [False]; row += list(item); self._content.append(row)]. *)
Definition append_row (item : list value) : M unit :=
  let row := [VBool false] in
  let row := row ++ item in
  content <- gets _content ;;
  set__content (content ++ [row]).

Definition __init__ (header : list string) (content : list (list value)) : M unit :=
  set__header ["Process"%string] ;;
  h <- gets _header ;;
  set__header (h ++ header) ;;
  set__content [] ;;
  for_ content append_row ;;
  h <- gets _header ;;
  set__column_count (len h) ;;
  c <- gets _content ;;
  set__row_count (len c) ;;
  fireTableStructureChanged ;;
  n <- gets _row_count ;;
  if n >? 0 then fireTableRowsInserted 0 (n - 1) else ret tt.

Definition set_header (columns : list string) : M unit :=
  set__header ["Process"%string] ;;
  h <- gets _header ;;
  set__header (h ++ columns) ;;
  set__column_count (len columns) ;;
  c <- gets _content ;;
  set__row_count (len c) ;;
  fireTableStructureChanged.

Definition set_content (rows : list (list value)) : M unit :=
  set__content [] ;;
  for_ rows append_row ;;
  c <- gets _content ;;
  set__row_count (len c) ;;
  n <- gets _row_count ;;
  if n >? 0 then fireTableRowsInserted 0 (n - 1) else ret tt.

Definition getRowCount : M Z :=
  try_except (gets _row_count) (ret 0).

Definition getColumnCount : M Z :=
  try_except (gets _column_count) (ret 0).

(** The result is [None] where the method returns Python's [None]. *)
Definition getColumnName (column_index : Z) : M (option string) :=
  try_except
    (h <- gets _header ;;
     if column_index <? len h
     then name <- lift (py_getitem h column_index) ;; ret (Some name)
     else ret None)
    (ret None).

Definition getValueAt (row_index column_index : Z) : M value :=
  content <- gets _content ;;
  row <- lift (py_getitem content row_index) ;;
  lift (py_getitem row column_index).

Definition isCellEditable (row_index column_index : Z) : bool :=
  column_index =? 0.

(** [self._content[row_index][column_index] = value].  Every row is a list
    object of its own (built by [append_row]), so the update of the row in
    place is the update of that one position of [_content]. *)
Definition setValueAt (v : value) (row_index column_index : Z) : M unit :=
  content <- gets _content ;;
  row <- lift (py_getitem content row_index) ;;
  row' <- lift (py_setitem row column_index v) ;;
  content' <- lift (py_setitem content row_index row') ;;
  set__content content' ;;
  fireTableCellUpdated row_index column_index.

(** The fourth test of [get_type_at] is [isinstance(value, time)], and its
    branch reads [Date].  Neither name is defined by the module: [time] is
    whatever [import time] binds in the interpreter that hosts the
    extension, and [Date] is imported nowhere, so reading it raises
    [NameError].  The answer of the instance test against [time] is taken
    from the host; it may itself raise. *)
Section Host.

Variable isinstance_time : value -> result bool.

Definition get_type_at (column_index : Z) : M Java.class :=
  let result := Java.String in
  n <- gets _row_count ;;
  if n >=? 1 then
    content <- gets _content ;;
    row <- lift (py_getitem content 0) ;;
    v <- lift (py_getitem row column_index) ;;
    if isinstance v bool_ then ret Java.Boolean
    else if isinstance v float_ then ret Java.Float
    else if isinstance v int_ then ret Java.Integer
    else
      is_time <- lift (isinstance_time v) ;;
      if is_time : bool then raise NameError else ret result
  else ret result.

Definition getColumnClass (column_index : Z) : M Java.class :=
  get_type_at column_index.

End Host.


(** ** [ScopeTable]: the actions of the context menu

    The table holds its model in [self.data_model]; the actions below run
    on that object.  The selection and the translation of a view row into
    a model row belong to [JTable] and are taken from it. *)

Definition set_model (header : list string) (rows : list (list value)) : M unit :=
  set_header header ;;
  set_content rows.

Definition _invert_selection_menu_pressed : M unit :=
  row_count <- getRowCount ;;
  for_ (range 0 row_count) (fun i =>
    v <- getValueAt i 0 ;;
    setValueAt (py_not v) i 0).

Definition _update_all_rows (v : value) : M unit :=
  row_count <- getRowCount ;;
  for_ (range 0 row_count) (fun i => setValueAt v i 0).

Definition _select_all_menu_pressed : M unit := _update_all_rows (VBool true).
Definition _unselect_all_menu_pressed : M unit := _update_all_rows (VBool false).

Section JTable.

(** [JTable.getSelectedRows()]: the selected rows, as indices of the view. *)
Variable getSelectedRows : list Z.
(** [JTable.convertRowIndexToModel(row)] *)
Variable convertRowIndexToModel : Z -> Z.

Definition _update_selected_rows (v : value) : M unit :=
  let selected_rows := getSelectedRows in
  for_ selected_rows (fun selected_row =>
    let model_row := convertRowIndexToModel selected_row in
    setValueAt v model_row 0).

Definition _select_all_selected_menu_pressed : M unit :=
  _update_selected_rows (VBool true).
Definition _unselect_all_selected_menu_pressed : M unit :=
  _update_selected_rows (VBool false).

End JTable.

(** The object before [__init__] has run, and the model a constructor call
    returns. *)
Definition blank : BaseScopeDataModel := mkModel [] [] 0 0 [].

Definition state_of {A : Type} (o : outcome A) : BaseScopeDataModel :=
  match o with
  | Ok _ s => s
  | Raise _ s => s
  end.

Definition new_BaseScopeDataModel (header : list string) (content : list (list value))
  : BaseScopeDataModel :=
  state_of (__init__ header content blank).

(** The value part of an outcome, for comparing what two calls return. *)
Definition value_of {A : Type} (o : outcome A) : result A :=
  match o with
  | Ok a _ => Val a
  | Raise e _ => Exc e
  end.

(** ** States a model object can be in *)

(** The mutators of the model; the actions of the table go through
    [setValueAt] only. *)
Inductive call : Type :=
| Call_set_header (columns : list string)
| Call_set_content (rows : list (list value))
| Call_setValueAt (v : value) (row_index column_index : Z).

Definition run_call (k : call) : M unit :=
  match k with
  | Call_set_header columns => set_header columns
  | Call_set_content rows => set_content rows
  | Call_setValueAt v r c => setValueAt v r c
  end.

(** A model is constructed and then mutated by calls, whether they return
    or raise. *)
Inductive reachable : BaseScopeDataModel -> Prop :=
| reachable_new header content :
    reachable (new_BaseScopeDataModel header content)
| reachable_call m k :
    reachable m -> reachable (state_of (run_call k m)).

(** What every reachable state satisfies: the cached row count is the
    number of rows, and no row is empty (each was built with a leading
    flag cell). *)
Definition coherent (m : BaseScopeDataModel) : Prop :=
  _row_count m = len (_content m) /\ Forall (fun row => row <> []) (_content m).

(** The invariant of the data model as the specification words it: the
    header is "Process" followed by the caller's names, the column count is
    one more than their number, and every row has that many cells. *)
Definition shape_invariant (m : BaseScopeDataModel) : Prop :=
  (exists names, _header m = "Process"%string :: names /\ _column_count m = 1 + len names)
  /\ Forall (fun row => len row = _column_count m) (_content m).

(** A row with its flag cell prepended. *)
Definition flagged (item : list value) : list value := VBool false :: item.

(** ** Auxiliary notions used in the statements *)

(** The notifications [__init__] and [set_content] send for [n] new rows. *)
Definition rows_inserted (n : Z) : list event :=
  if n >? 0 then [TableRowsInserted 0 (n - 1)] else [].

(** The name [getColumnName] answers with, as a function of the header. *)
Definition column_name_of (h : list string) (i : Z) : option string :=
  if i <? len h then
    match py_getitem h i with
    | Val name => Some name
    | Exc _ => None
    end
  else None.

(** The cell at a position counted from the front, if there is one. *)
Definition cell (content : list (list value)) (r c : nat) : option value :=
  match content !! r with
  | Some row => row !! c
  | None => None
  end.

(** The state [setValueAt] leaves when position [k] of the content becomes
    [row]. *)
Definition with_row (s : BaseScopeDataModel) (k : nat) (row : list value)
    (r c : Z) : BaseScopeDataModel :=
  mkModel (_header s) (<[k := row]> (_content s)) (_column_count s) (_row_count s)
          (fired s ++ [TableCellUpdated r c]).

(** What a frame of the model keeps: header and cached counts. *)
Definition same_shape (s s' : BaseScopeDataModel) : Prop :=
  _header s' = _header s /\ _column_count s' = _column_count s /\
  _row_count s' = _row_count s /\ length (_content s') = length (_content s).

(** A row with its flag cell negated. *)
Definition toggled (row : list value) : list value :=
  match row with
  | [] => []
  | x :: rest => py_not x :: rest
  end.

(** The effect of a pass that writes [v] into the flag cell of every row. *)
Definition all_flags_set (v : value) (m m' : BaseScopeDataModel) : Prop :=
  same_shape m m' /\
  (forall r, 0 <= r < _row_count m -> getValueAt r 0 m' = Ok v m') /\
  (forall r c, 0 <= r -> 0 < c ->
     value_of (getValueAt r c m') = value_of (getValueAt r c m)).

(** Five rows shown in descending order: view row [i] is model row [4 - i]. *)
Definition five_rows : BaseScopeDataModel :=
  new_BaseScopeDataModel ["Rank"%string]
    [[VInt 10]; [VInt 20]; [VInt 30]; [VInt 40]; [VInt 50]].

Definition descending (view_row : Z) : Z := 4 - view_row.

(** Three rows, all checked, shown in reverse order. *)
Definition three_checked : BaseScopeDataModel :=
  state_of (_select_all_menu_pressed
              (new_BaseScopeDataModel ["Host"%string] [[VStr "a"]; [VStr "b"]; [VStr "c"]])).

Definition reversed3 (view_row : Z) : Z := 2 - view_row.

(** Rows whose flags are an integer, a string and [None]. *)
Definition odd_flags : BaseScopeDataModel :=
  state_of (run_call (Call_setValueAt VNone 2 0)
    (state_of (run_call (Call_setValueAt (VStr "x") 1 0)
      (state_of (run_call (Call_setValueAt (VInt 0) 0 0)
        (new_BaseScopeDataModel ["Host"%string] [[VStr "a"]; [VStr "b"]; [VStr "c"]])))))).

(** ** Indexing lemmas *)

Lemma py_index_nat (n k : nat) : (k < n)%nat -> py_index n (Z.of_nat k) = Some k.
Proof.
  intros Hk. unfold py_index.
  destruct (Z.leb_spec 0 (Z.of_nat k)); [| lia].
  destruct (Z.ltb_spec (Z.of_nat k) (Z.of_nat n)); [| lia].
  by rewrite Nat2Z.id.
Qed.

Lemma py_index_front (n : nat) (i : Z) :
  0 <= i < Z.of_nat n -> py_index n i = Some (Z.to_nat i).
Proof.
  intros Hi. unfold py_index.
  destruct (Z.leb_spec 0 i); [| lia].
  by destruct (Z.ltb_spec i (Z.of_nat n)); [| lia].
Qed.

Lemma py_index_back (n : nat) (i : Z) :
  - Z.of_nat n <= i < 0 -> py_index n i = Some (Z.to_nat (Z.of_nat n + i)).
Proof.
  intros Hi. unfold py_index.
  destruct (Z.leb_spec 0 i); [lia |].
  by destruct (Z.leb_spec (- Z.of_nat n) i); [| lia].
Qed.

Lemma py_index_out (n : nat) (i : Z) :
  i < - Z.of_nat n \/ Z.of_nat n <= i -> py_index n i = None.
Proof.
  intros Hi. unfold py_index.
  destruct (Z.leb_spec 0 i).
  - by destruct (Z.ltb_spec i (Z.of_nat n)); [lia |].
  - by destruct (Z.leb_spec (- Z.of_nat n) i); [lia |].
Qed.

Lemma py_index_lt (n : nat) (i : Z) (k : nat) : py_index n i = Some k -> (k < n)%nat.
Proof.
  unfold py_index.
  destruct (Z.leb_spec 0 i).
  - destruct (Z.ltb_spec i (Z.of_nat n)); [| done]. intros [= <-]. lia.
  - destruct (Z.leb_spec (- Z.of_nat n) i); [| done]. intros [= <-]. lia.
Qed.

Lemma py_getitem_front {A : Type} (l : list A) (i : Z) (x : A) :
  0 <= i -> l !! Z.to_nat i = Some x -> py_getitem l i = Val x.
Proof.
  intros Hi Hx. unfold py_getitem.
  rewrite py_index_front; [by rewrite Hx |].
  apply lookup_lt_Some in Hx. lia.
Qed.

Lemma py_getitem_nat {A : Type} (l : list A) (k : nat) (x : A) :
  l !! k = Some x -> py_getitem l (Z.of_nat k) = Val x.
Proof.
  intros Hx. apply py_getitem_front; [lia |]. by rewrite Nat2Z.id.
Qed.

Lemma py_getitem_lookup {A : Type} (l : list A) (i : Z) :
  0 <= i ->
  py_getitem l i = match l !! Z.to_nat i with Some x => Val x | None => Exc IndexError end.
Proof.
  intros Hi. destruct (l !! Z.to_nat i) as [x |] eqn:Hx.
  - by apply py_getitem_front.
  - unfold py_getitem. apply lookup_ge_None in Hx.
    rewrite py_index_out; [done | lia].
Qed.

Lemma py_setitem_front {A : Type} (l : list A) (i : Z) (x : A) :
  0 <= i < len l -> py_setitem l i x = Val (<[Z.to_nat i := x]> l).
Proof.
  intros Hi. unfold py_setitem. by rewrite py_index_front.
Qed.

(** ** Running the methods *)

Lemma for_append_row (rows : list (list value)) (s : BaseScopeDataModel) :
  for_ rows append_row s =
  Ok tt (mkModel (_header s) (_content s ++ map flagged rows)
                 (_column_count s) (_row_count s) (fired s)).
Proof.
  revert s. induction rows as [| item rows IH]; intros s.
  - simpl. rewrite app_nil_r. by destruct s.
  - simpl. unfold bind at 1. unfold append_row, bind, gets, set__content, modify.
    rewrite IH. simpl. by rewrite <- app_assoc.
Qed.

Lemma __init___run (header : list string) (content : list (list value))
    (s : BaseScopeDataModel) :
  __init__ header content s =
  Ok tt (mkModel ("Process"%string :: header) (map flagged content)
                 (1 + len header) (len content)
                 (fired s ++ TableStructureChanged :: rows_inserted (len content))).
Proof.
  unfold __init__.
  unfold bind at 1 2 3 4. unfold set__header, set__content, gets, modify. simpl.
  unfold bind at 1. rewrite for_append_row. simpl.
  unfold bind, gets, set__column_count, set__row_count, fireTableStructureChanged,
    fireTableRowsInserted, fire, modify, ret. simpl.
  replace (len ("Process"%string :: header)) with (1 + len header)
    by (unfold len; simpl; lia).
  replace (len (map flagged content)) with (len content)
    by (unfold len; by rewrite length_map).
  unfold rows_inserted.
  destruct (len content >? 0); simpl; by rewrite <- ?app_assoc.
Qed.

Lemma set_header_run (columns : list string) (s : BaseScopeDataModel) :
  set_header columns s =
  Ok tt (mkModel ("Process"%string :: columns) (_content s)
                 (len columns) (len (_content s))
                 (fired s ++ [TableStructureChanged])).
Proof. reflexivity. Qed.

Lemma set_content_run (rows : list (list value)) (s : BaseScopeDataModel) :
  set_content rows s =
  Ok tt (mkModel (_header s) (map flagged rows)
                 (_column_count s) (len rows)
                 (fired s ++ rows_inserted (len rows))).
Proof.
  unfold set_content.
  unfold bind at 1. unfold set__content, modify. simpl.
  unfold bind at 1. rewrite for_append_row. simpl.
  unfold bind, gets, set__row_count, fireTableRowsInserted, fire, modify, ret. simpl.
  replace (len (map flagged rows)) with (len rows)
    by (unfold len; by rewrite length_map).
  unfold rows_inserted.
  destruct (len rows >? 0); simpl; by rewrite ?app_nil_r.
Qed.

Lemma new_BaseScopeDataModel_eq (header : list string) (content : list (list value)) :
  new_BaseScopeDataModel header content =
  mkModel ("Process"%string :: header) (map flagged content)
          (1 + len header) (len content)
          (TableStructureChanged :: rows_inserted (len content)).
Proof. unfold new_BaseScopeDataModel. by rewrite __init___run. Qed.

Lemma getRowCount_run (s : BaseScopeDataModel) : getRowCount s = Ok (_row_count s) s.
Proof. reflexivity. Qed.

Lemma getColumnCount_run (s : BaseScopeDataModel) :
  getColumnCount s = Ok (_column_count s) s.
Proof. reflexivity. Qed.

Lemma getColumnName_run (i : Z) (s : BaseScopeDataModel) :
  getColumnName i s = Ok (column_name_of (_header s) i) s.
Proof.
  unfold getColumnName, try_except, bind, gets, column_name_of.
  destruct (i <? len (_header s)); [| done].
  by destruct (py_getitem (_header s) i).
Qed.

Lemma getValueAt_run (r c : Z) (s : BaseScopeDataModel) :
  0 <= r -> 0 <= c ->
  getValueAt r c s =
  match cell (_content s) (Z.to_nat r) (Z.to_nat c) with
  | Some x => Ok x s
  | None => Raise IndexError s
  end.
Proof.
  intros Hr Hc. unfold getValueAt, bind, gets, cell.
  rewrite py_getitem_lookup by done.
  destruct (_content s !! Z.to_nat r) as [row |]; [| done]. simpl.
  rewrite py_getitem_lookup by done.
  by destruct (row !! Z.to_nat c).
Qed.

Lemma getValueAt_value (r c : Z) (s : BaseScopeDataModel) :
  0 <= r -> 0 <= c ->
  value_of (getValueAt r c s) =
  match cell (_content s) (Z.to_nat r) (Z.to_nat c) with
  | Some x => Val x
  | None => Exc IndexError
  end.
Proof.
  intros Hr Hc. rewrite getValueAt_run by done.
  by destruct (cell _ _ _).
Qed.

Lemma setValueAt_run (v : value) (r c : Z) (row : list value) (s : BaseScopeDataModel) :
  0 <= r -> _content s !! Z.to_nat r = Some row -> 0 <= c < len row ->
  setValueAt v r c s =
  Ok tt (with_row s (Z.to_nat r) (<[Z.to_nat c := v]> row) r c).
Proof.
  intros Hr Hrow Hc. unfold setValueAt, bind, gets.
  rewrite (py_getitem_front _ _ row) by done. simpl.
  rewrite py_setitem_front by done. simpl.
  rewrite py_setitem_front; [done |].
  apply lookup_lt_Some in Hrow. unfold len. lia.
Qed.

(** Whatever the indices, [setValueAt] either raises and leaves the object
    as it was, or replaces one cell of one row. *)
Lemma setValueAt_cases (v : value) (r c : Z) (s : BaseScopeDataModel) :
  (exists e, setValueAt v r c s = Raise e s) \/
  (exists k j row, _content s !! k = Some row /\ (j < length row)%nat /\
     setValueAt v r c s = Ok tt (with_row s k (<[j := v]> row) r c)).
Proof.
  unfold setValueAt, bind, gets, py_getitem, py_setitem.
  destruct (py_index (length (_content s)) r) as [k |] eqn:Hk; [| left; by eexists].
  destruct (_content s !! k) as [row |] eqn:Hrow; [| left; by eexists]. simpl.
  destruct (py_index (length row) c) as [j |] eqn:Hj; [| left; by eexists]. simpl.
  right. exists k, j, row.
  split; [done |]. split; [by eapply py_index_lt | done].
Qed.

(** ** Every reachable state is coherent *)

Lemma coherent_new (header : list string) (content : list (list value)) :
  coherent (new_BaseScopeDataModel header content).
Proof.
  rewrite new_BaseScopeDataModel_eq. split; simpl.
  - unfold len. by rewrite length_map.
  - apply Forall_forall. intros row [item [-> _]]%list_elem_of_fmap. done.
Qed.

Lemma coherent_with_row (s : BaseScopeDataModel) (k j : nat) (row : list value)
    (v : value) (r c : Z) :
  coherent s -> _content s !! k = Some row -> (j < length row)%nat ->
  coherent (with_row s k (<[j := v]> row) r c).
Proof.
  intros [Hn Hrows] Hrow Hj. split; simpl.
  - unfold len. by rewrite length_insert.
  - apply Forall_insert; [done |].
    intros E. apply (f_equal length) in E. rewrite length_insert in E. simpl in E. lia.
Qed.

Lemma coherent_call (m : BaseScopeDataModel) (k : call) :
  coherent m -> coherent (state_of (run_call k m)).
Proof.
  intros Hm. destruct k as [columns | rows | v r c]; cbn [run_call].
  - rewrite set_header_run. simpl. destruct Hm as [_ Hrows]. by split.
  - rewrite set_content_run. split; simpl.
    + unfold len. by rewrite length_map.
    + apply Forall_forall. intros row [item [-> _]]%list_elem_of_fmap. done.
  - destruct (setValueAt_cases v r c m) as [[e ->] | (k & j & row & Hrow & Hj & ->)];
      simpl; [done |]. by apply coherent_with_row.
Qed.

Lemma reachable_coherent (m : BaseScopeDataModel) : reachable m -> coherent m.
Proof.
  induction 1 as [header content | m k _ IH].
  - apply coherent_new.
  - by apply coherent_call.
Qed.

(** The actions of the table only read cells and call [setValueAt], so the
    states they leave, on return or on an exception, are reachable too. *)
Lemma state_of_bind {A B : Type} (c : M A) (k : A -> M B) (s : BaseScopeDataModel) :
  state_of (bind c k s) =
  match c s with
  | Ok a s' => state_of (k a s')
  | Raise _ s' => s'
  end.
Proof. unfold bind. by destruct (c s). Qed.

Lemma for_reachable {X : Type} (body : X -> M unit) (xs : list X) :
  (forall x s, reachable s -> reachable (state_of (body x s))) ->
  forall s, reachable s -> reachable (state_of (for_ xs body s)).
Proof.
  intros Hbody. induction xs as [| x xs IH]; intros s Hs; [done |].
  simpl. rewrite state_of_bind.
  specialize (Hbody x s Hs). destruct (body x s) as [[] s' | e s']; simpl in Hbody.
  - by apply IH.
  - done.
Qed.

Lemma setValueAt_reachable (v : value) (r c : Z) (s : BaseScopeDataModel) :
  reachable s -> reachable (state_of (setValueAt v r c s)).
Proof. intros Hs. exact (reachable_call s (Call_setValueAt v r c) Hs). Qed.

Lemma getValueAt_state (r c : Z) (s : BaseScopeDataModel) :
  state_of (getValueAt r c s) = s.
Proof.
  unfold getValueAt, bind, gets.
  destruct (py_getitem (_content s) r) as [row | e]; simpl; [| done].
  by destruct (py_getitem row c).
Qed.

Lemma _update_all_rows_reachable (v : value) (s : BaseScopeDataModel) :
  reachable s -> reachable (state_of (_update_all_rows v s)).
Proof.
  intros Hs. unfold _update_all_rows. rewrite state_of_bind, getRowCount_run.
  apply for_reachable; [| done]. intros i s'. apply setValueAt_reachable.
Qed.

Lemma _update_selected_rows_reachable (selected : list Z) (to_model : Z -> Z) (v : value)
    (s : BaseScopeDataModel) :
  reachable s -> reachable (state_of (_update_selected_rows selected to_model v s)).
Proof.
  intros Hs. unfold _update_selected_rows.
  apply for_reachable; [| done]. intros i s'. apply setValueAt_reachable.
Qed.

Lemma _invert_selection_menu_pressed_reachable (s : BaseScopeDataModel) :
  reachable s -> reachable (state_of (_invert_selection_menu_pressed s)).
Proof.
  intros Hs. unfold _invert_selection_menu_pressed.
  rewrite state_of_bind, getRowCount_run.
  apply for_reachable; [| done]. intros i s' Hs'.
  rewrite state_of_bind.
  pose proof (getValueAt_state i 0 s') as Hget.
  destruct (getValueAt i 0 s') as [x s'' | e s'']; simpl in Hget; subst s''.
  - by apply setValueAt_reachable.
  - done.
Qed.

(** ** The loops of the bulk actions *)

Lemma same_shape_refl (s : BaseScopeDataModel) : same_shape s s.
Proof. by repeat split. Qed.

Lemma same_shape_trans (s1 s2 s3 : BaseScopeDataModel) :
  same_shape s1 s2 -> same_shape s2 s3 -> same_shape s1 s3.
Proof.
  intros (? & ? & ? & ?) (? & ? & ? & ?). repeat split; congruence.
Qed.

Lemma same_shape_with_row (s : BaseScopeDataModel) (k : nat) (row : list value) (r c : Z) :
  same_shape s (with_row s k row r c).
Proof. repeat split. simpl. by rewrite length_insert. Qed.

Lemma range_0_nat (n : nat) : range 0 (Z.of_nat n) = map Z.of_nat (seq 0 n).
Proof.
  unfold range. rewrite Z.sub_0_r, Nat2Z.id. by apply map_ext.
Qed.

Lemma elem_of_range_0 (n k : nat) : Z.of_nat k ∈ range 0 (Z.of_nat n) <-> (k < n)%nat.
Proof.
  rewrite range_0_nat. rewrite list_elem_of_In, in_map_iff. split.
  - intros (j & Hj & Hin). apply in_seq in Hin. lia.
  - intros Hk. exists k. split; [done |]. apply in_seq. lia.
Qed.

(** Writing [v] into the flag cell of the rows at the positions [ks], in
    order, possibly more than once. *)
Lemma set_flags_loop (v : value) (ks : list Z) (s : BaseScopeDataModel) :
  coherent s ->
  (forall k, k ∈ ks -> 0 <= k < len (_content s)) ->
  exists s',
    for_ ks (fun i => setValueAt v i 0) s = Ok tt s' /\
    coherent s' /\ same_shape s s' /\
    forall (k : nat) (row : list value),
      _content s !! k = Some row ->
      _content s' !! k =
      Some (if bool_decide (Z.of_nat k ∈ ks) then <[0%nat := v]> row else row).
Proof.
  revert s. induction ks as [| k0 ks IH]; intros s Hs Hks.
  - exists s. split; [done |]. split; [done |]. split; [apply same_shape_refl |].
    intros k row Hrow. rewrite bool_decide_eq_false_2; [done |]. by intros ?%elem_of_nil.
  - assert (0 <= k0 < len (_content s)) as Hk0 by (apply Hks; left).
    destruct (_content s !! Z.to_nat k0) as [row0 |] eqn:Hrow0; cycle 1.
    { apply lookup_ge_None in Hrow0. unfold len in Hk0. lia. }
    assert (row0 <> []) as Hne.
    { destruct Hs as [_ Hrows]. rewrite Forall_forall in Hrows.
      apply Hrows. by eapply list_elem_of_lookup_2. }
    assert (0 <= 0 < len row0) as Hc.
    { destruct row0; [done |]. unfold len. simpl. lia. }
    pose proof (setValueAt_run v k0 0 row0 s (proj1 Hk0) Hrow0 Hc) as Hset.
    simpl in Hset.
    set (s1 := with_row s (Z.to_nat k0) (<[0%nat := v]> row0) k0 0) in *.
    assert (coherent s1) as Hs1.
    { apply coherent_with_row; [done | done |]. destruct row0; [done | simpl; lia]. }
    assert (same_shape s s1) as Hsh1 by apply same_shape_with_row.
    destruct (IH s1 Hs1) as (s' & Hrun & Hs' & Hsh & Hcells).
    { intros k Hk. destruct Hsh1 as (_ & _ & _ & Hlen). unfold len. rewrite Hlen.
      apply Hks. by right. }
    exists s'. split.
    { simpl. unfold bind. by rewrite Hset. }
    split; [done |]. split; [by eapply same_shape_trans |].
    intros k row Hrow.
    destruct (decide (k = Z.to_nat k0)) as [-> | Hneq].
    + assert (row = row0) as -> by congruence.
      rewrite (Hcells (Z.to_nat k0) (<[0%nat := v]> row0)).
      * rewrite (bool_decide_eq_true_2 (Z.of_nat (Z.to_nat k0) ∈ k0 :: ks)).
        -- destruct (bool_decide _); [| done]. by rewrite list_insert_insert_eq.
        -- rewrite Z2Nat.id by lia. left.
      * subst s1. simpl. apply list_lookup_insert_eq. by eapply lookup_lt_Some.
    + rewrite (Hcells k row).
      * f_equal. assert (Z.of_nat k <> k0) by lia.
        destruct (bool_decide_reflect (Z.of_nat k ∈ ks)) as [Hin | Hnin].
        -- rewrite bool_decide_eq_true_2; [done | by right].
        -- rewrite bool_decide_eq_false_2; [done |].
           by intros [? | ?]%elem_of_cons.
      * subst s1. simpl. by rewrite list_lookup_insert_ne.
Qed.

Lemma for_map {X Y : Type} (f : X -> Y) (xs : list X) (body : Y -> M unit) :
  for_ (map f xs) body = for_ xs (fun x => body (f x)).
Proof.
  induction xs as [| x xs IH]; [done |]. simpl. by rewrite IH.
Qed.

Lemma invert_loop (n a : nat) (s : BaseScopeDataModel) :
  coherent s ->
  (a + n <= length (_content s))%nat ->
  exists s',
    for_ (map Z.of_nat (seq a n))
         (fun i => v <- getValueAt i 0 ;; setValueAt (py_not v) i 0) s = Ok tt s' /\
    coherent s' /\ same_shape s s' /\
    forall (k : nat) (row : list value),
      _content s !! k = Some row ->
      _content s' !! k =
      Some (if bool_decide (a <= k < a + n)%nat then toggled row else row).
Proof.
  revert a s. induction n as [| n IH]; intros a s Hs Han.
  - exists s. split; [done |]. split; [done |]. split; [apply same_shape_refl |].
    intros k row Hrow. rewrite bool_decide_eq_false_2; [done | lia].
  - destruct (_content s !! a) as [row0 |] eqn:Hrow0; cycle 1.
    { apply lookup_ge_None in Hrow0. lia. }
    destruct row0 as [| x rest].
    { destruct Hs as [_ Hrows]. rewrite Forall_forall in Hrows.
      exfalso. eapply Hrows; [by eapply list_elem_of_lookup_2 | done]. }
    assert (getValueAt (Z.of_nat a) 0 s = Ok x s) as Hget.
    { rewrite getValueAt_run by lia. unfold cell. rewrite Nat2Z.id, Hrow0. done. }
    assert (setValueAt (py_not x) (Z.of_nat a) 0 s =
            Ok tt (with_row s a (py_not x :: rest) (Z.of_nat a) 0)) as Hset.
    { rewrite (setValueAt_run _ _ _ (x :: rest)).
      - by rewrite Nat2Z.id.
      - lia.
      - by rewrite Nat2Z.id.
      - unfold len. simpl. lia. }
    set (s1 := with_row s a (py_not x :: rest) (Z.of_nat a) 0) in *.
    assert (coherent s1) as Hs1.
    { apply (coherent_with_row s a 0 (x :: rest) (py_not x)); [done | done | simpl; lia]. }
    assert (same_shape s s1) as Hsh1 by apply same_shape_with_row.
    destruct (IH (S a) s1 Hs1) as (s' & Hrun & Hs' & Hsh & Hcells).
    { destruct Hsh1 as (_ & _ & _ & Hlen). rewrite Hlen. lia. }
    exists s'. split.
    { simpl. unfold bind at 1. unfold bind at 1. rewrite Hget. by rewrite Hset. }
    split; [done |]. split; [by eapply same_shape_trans |].
    intros k row Hrow.
    destruct (decide (k = a)) as [-> | Hneq].
    + assert (row = x :: rest) as -> by congruence.
      rewrite (Hcells a (py_not x :: rest)).
      * rewrite bool_decide_eq_false_2 by lia.
        by rewrite bool_decide_eq_true_2 by lia.
      * subst s1. simpl. apply list_lookup_insert_eq. by eapply lookup_lt_Some.
    + rewrite (Hcells k row).
      * f_equal.
        destruct (bool_decide_reflect (S a <= k < S a + n)%nat).
        -- by rewrite bool_decide_eq_true_2 by lia.
        -- by rewrite bool_decide_eq_false_2 by lia.
      * subst s1. simpl. by rewrite list_lookup_insert_ne.
Qed.

(** ** Reading cells before and after an update *)

Lemma getValueAt_content (r c : Z) (s s' : BaseScopeDataModel) :
  _content s = _content s' ->
  value_of (getValueAt r c s) = value_of (getValueAt r c s').
Proof.
  intros E. unfold getValueAt, bind, gets. rewrite E.
  destruct (py_getitem (_content s') r) as [row | e]; simpl; [| done].
  by destruct (py_getitem row c).
Qed.

Lemma reachable_row (m : BaseScopeDataModel) (r : Z) :
  reachable m -> 0 <= r < _row_count m ->
  exists x rest, _content m !! Z.to_nat r = Some (x :: rest).
Proof.
  intros [Hn Hrows]%reachable_coherent Hr. rewrite Hn in Hr. unfold len in Hr.
  destruct (_content m !! Z.to_nat r) as [row |] eqn:Hrow.
  - destruct row as [| x rest]; [| by eauto].
    rewrite Forall_forall in Hrows. exfalso.
    eapply Hrows; [by eapply list_elem_of_lookup_2 | done].
  - apply lookup_ge_None in Hrow. lia.
Qed.

(** Rows that were only touched in their flag cell read the same in every
    other column. *)
Lemma cell_frame (content content' : list (list value)) (f : nat -> list value -> list value) :
  length content' = length content ->
  (forall k row, content !! k = Some row -> content' !! k = Some (f k row)) ->
  (forall k row j, j <> 0%nat -> f k row !! j = row !! j) ->
  forall r c, c <> 0%nat -> cell content' r c = cell content r c.
Proof.
  intros Hlen Hrows Hf r c Hc. unfold cell.
  destruct (content !! r) as [row |] eqn:Hrow.
  - rewrite (Hrows _ _ Hrow). by apply Hf.
  - apply lookup_ge_None in Hrow. rewrite <- Hlen in Hrow.
    apply lookup_ge_None in Hrow. by rewrite Hrow.
Qed.

Lemma getValueAt_frame (s s' : BaseScopeDataModel) (f : nat -> list value -> list value) :
  length (_content s') = length (_content s) ->
  (forall k row, _content s !! k = Some row -> _content s' !! k = Some (f k row)) ->
  (forall k row j, j <> 0%nat -> f k row !! j = row !! j) ->
  forall r c, 0 <= r -> 0 < c ->
    value_of (getValueAt r c s') = value_of (getValueAt r c s).
Proof.
  intros Hlen Hrows Hf r c Hr Hc.
  rewrite !getValueAt_value by lia.
  rewrite (cell_frame _ _ f Hlen Hrows Hf); [done | lia].
Qed.

(** ** Construction *)

(** C1: a model constructed from a header [H] and rows [C] reports
    [len H + 1] columns and [len C] rows, names column 0 "Process" and
    column [i + 1] after [H[i]] for every position [i] of [H].  Nothing is
    asked of the length of the rows. *)
Theorem construct_counts_and_names (H : list string) (C : list (list value)) :
  let m := new_BaseScopeDataModel H C in
  getColumnCount m = Ok (len H + 1) m /\
  getRowCount m = Ok (len C) m /\
  getColumnName 0 m = Ok (Some "Process"%string) m /\
  forall i, 0 <= i < len H ->
    exists name, H !! Z.to_nat i = Some name /\
                 getColumnName (i + 1) m = Ok (Some name) m.
Proof.
  intros m. subst m. rewrite new_BaseScopeDataModel_eq.
  split; [rewrite getColumnCount_run; simpl; f_equal; lia |].
  split; [done |].
  split.
  - rewrite getColumnName_run. simpl. unfold column_name_of, len. simpl.
    destruct (Z.ltb_spec 0 (Z.pos (Pos.of_succ_nat (length H)))); [done | lia].
  - intros i Hi. unfold len in Hi.
    destruct (H !! Z.to_nat i) as [name |] eqn:Hname; cycle 1.
    { apply lookup_ge_None in Hname. lia. }
    exists name. split; [done |].
    rewrite getColumnName_run. simpl. unfold column_name_of.
    destruct (Z.ltb_spec (i + 1) (len ("Process"%string :: H))) as [_ | Hge];
      cycle 1.
    { unfold len in Hge. simpl in Hge. lia. }
    rewrite (py_getitem_front _ _ name); [done | lia |].
    replace (Z.to_nat (i + 1)) with (S (Z.to_nat i)) by lia. done.
Qed.

Lemma construct_counts_and_names_witness :
  let m := new_BaseScopeDataModel ["Host"%string; "Port"%string] [[VStr "a"; VInt 80]] in
  0 <= 1 < len ["Host"%string; "Port"%string] /\
  exists name, ["Host"%string; "Port"%string] !! Z.to_nat 1 = Some name /\
               getColumnName (1 + 1) m = Ok (Some name) m.
Proof.
  intros m.
  assert (0 <= 1 < len ["Host"%string; "Port"%string]) as Hi by (vm_compute; split; congruence).
  split; [exact Hi |].
  exact (proj2 (proj2 (proj2
    (construct_counts_and_names ["Host"%string; "Port"%string] [[VStr "a"; VInt 80]]))) 1 Hi).
Defined.

(** ** [set_header] *)

(** C3: [set_header(columns)] stores ["Process"] + columns as header, makes
    [getColumnCount] answer [len(columns)] (the "Process" column is not
    counted), and leaves the row count and the rows as they were. *)
Theorem set_header_effect (m : BaseScopeDataModel) (columns : list string) :
  reachable m ->
  exists m',
    set_header columns m = Ok tt m' /\
    _header m' = "Process"%string :: columns /\
    getColumnCount m' = Ok (len columns) m' /\
    value_of (getRowCount m') = value_of (getRowCount m) /\
    _content m' = _content m.
Proof.
  intros [Hn _]%reachable_coherent.
  eexists. split; [apply set_header_run |].
  split; [done |]. split; [done |]. split; [| done].
  rewrite !getRowCount_run. simpl. by rewrite Hn.
Qed.

Lemma set_header_effect_witness :
  exists m',
    set_header ["Host"%string; "Port"%string]
               (new_BaseScopeDataModel ["Host"%string] [[VStr "a"]]) = Ok tt m' /\
    _header m' = ["Process"%string; "Host"%string; "Port"%string] /\
    getColumnCount m' = Ok 2 m' /\
    value_of (getRowCount m') = Val 1 /\
    _content m' = [[VBool false; VStr "a"]].
Proof.
  exact (set_header_effect (new_BaseScopeDataModel ["Host"%string] [[VStr "a"]])
                           ["Host"%string; "Port"%string]
                           (reachable_new ["Host"%string] [[VStr "a"]])).
Defined.

(** ** [set_content] *)

(** C4: after [set_content(C)] the row count is [len C], the flag cell of
    every row reads [False], the cell at column [col + 1] of a row reads
    [C[row][col]], and the header is the one before the call. *)
Theorem set_content_effect (m : BaseScopeDataModel) (C : list (list value)) :
  exists m',
    set_content C m = Ok tt m' /\
    getRowCount m' = Ok (len C) m' /\
    (forall row, 0 <= row < len C -> getValueAt row 0 m' = Ok (VBool false) m') /\
    (forall row col item x,
        0 <= row -> 0 <= col ->
        C !! Z.to_nat row = Some item -> item !! Z.to_nat col = Some x ->
        getValueAt row (col + 1) m' = Ok x m') /\
    _header m' = _header m.
Proof.
  eexists. split; [apply set_content_run |].
  split; [done |]. split; [| split; [| done]].
  - intros row Hrow. rewrite getValueAt_run by lia. simpl. unfold cell.
    rewrite list_lookup_fmap.
    destruct (C !! Z.to_nat row) as [item |] eqn:Hitem; [done |].
    apply lookup_ge_None in Hitem. unfold len in Hrow. lia.
  - intros row col item x Hrow Hcol Hitem Hx.
    rewrite getValueAt_run by lia. simpl. unfold cell.
    rewrite list_lookup_fmap, Hitem. simpl.
    replace (Z.to_nat (col + 1)) with (S (Z.to_nat col)) by lia.
    unfold flagged. simpl. by rewrite Hx.
Qed.

Lemma set_content_effect_witness :
  exists m',
    set_content [[VStr "a"; VInt 80]; [VStr "b"; VInt 443]] blank = Ok tt m' /\
    getValueAt 1 0 m' = Ok (VBool false) m' /\
    getValueAt 1 (1 + 1) m' = Ok (VInt 443) m'.
Proof.
  destruct (set_content_effect blank [[VStr "a"; VInt 80]; [VStr "b"; VInt 443]])
    as (m' & Hrun & _ & Hflag & Hcell & _).
  exists m'. split; [exact Hrun |]. split.
  - apply Hflag. vm_compute. split; congruence.
  - apply (Hcell 1 1 [VStr "b"; VInt 443] (VInt 443)); [lia | lia | |]; reflexivity.
Defined.

(** ** [setValueAt] *)

(** C10: [setValueAt(v, r, c)] at a cell that exists returns normally,
    whether or not [isCellEditable] calls the cell editable (it does so
    for column 0 only); afterwards the cell reads [v], and the header, the
    counts and every other cell are as before. *)
Theorem setValueAt_overwrites (m : BaseScopeDataModel) (v : value) (r c : Z)
    (row : list value) :
  0 <= r -> _content m !! Z.to_nat r = Some row -> 0 <= c < len row ->
  (c <> 0 -> isCellEditable r c = false) /\
  exists m',
    setValueAt v r c m = Ok tt m' /\
    getValueAt r c m' = Ok v m' /\
    same_shape m m' /\
    forall r' c', 0 <= r' -> 0 <= c' -> (r', c') <> (r, c) ->
      value_of (getValueAt r' c' m') = value_of (getValueAt r' c' m).
Proof.
  intros Hr Hrow Hc. split.
  { intros Hne. unfold isCellEditable. by apply Z.eqb_neq. }
  pose proof (lookup_lt_Some _ _ _ Hrow) as Hlt.
  eexists. split; [by apply (setValueAt_run v r c row) |].
  split; [| split; [apply same_shape_with_row |]].
  - rewrite getValueAt_run by lia. simpl. unfold cell.
    rewrite list_lookup_insert_eq by done.
    rewrite list_lookup_insert_eq; [done |]. unfold len in Hc. lia.
  - intros r' c' Hr' Hc' Hne.
    rewrite !getValueAt_value by lia. simpl. unfold cell.
    destruct (decide (Z.to_nat r' = Z.to_nat r)) as [E | NE].
    + rewrite E, list_lookup_insert_eq, Hrow by done.
      rewrite list_lookup_insert_ne; [done |].
      intros E'. apply Hne. f_equal; lia.
    + by rewrite list_lookup_insert_ne.
Qed.

Lemma setValueAt_overwrites_witness :
  let m := new_BaseScopeDataModel ["Host"%string] [[VStr "a"]; [VStr "b"]] in
  isCellEditable 1 1 = false /\
  exists m',
    setValueAt (VInt 7) 1 1 m = Ok tt m' /\
    getValueAt 1 1 m' = Ok (VInt 7) m' /\
    value_of (getValueAt 0 1 m') = value_of (getValueAt 0 1 m).
Proof.
  intros m.
  destruct (setValueAt_overwrites m (VInt 7) 1 1 [VBool false; VStr "b"])
    as (Hedit & m' & Hrun & Hget & _ & Hframe).
  - lia.
  - reflexivity.
  - vm_compute. split; congruence.
  - split; [apply Hedit; lia |].
    exists m'. split; [exact Hrun |]. split; [exact Hget |].
    apply Hframe; [lia | lia | congruence].
Defined.

(** ** "Check all rows" and "Uncheck all rows" *)

Lemma insert_flag_other (v : value) (b : bool) (row : list value) (j : nat) :
  j <> 0%nat -> (if b then <[0%nat := v]> row else row) !! j = row !! j.
Proof.
  intros Hj. destruct b; [| done]. by rewrite list_lookup_insert_ne.
Qed.

Lemma _update_all_rows_spec (v : value) (m : BaseScopeDataModel) :
  reachable m -> exists m', _update_all_rows v m = Ok tt m' /\ all_flags_set v m m'.
Proof.
  intros Hreach. pose proof (reachable_coherent m Hreach) as Hm.
  destruct (set_flags_loop v (range 0 (_row_count m)) m Hm) as (m' & Hrun & _ & Hsh & Hcells).
  { destruct Hm as [Hn _]. rewrite Hn. unfold len.
    intros k Hk. rewrite range_0_nat in Hk.
    apply list_elem_of_In, in_map_iff in Hk as (j & <- & Hin).
    apply in_seq in Hin. lia. }
  exists m'. split.
  { unfold _update_all_rows, bind. by rewrite getRowCount_run. }
  split; [done |]. split.
  - intros r Hr.
    destruct (reachable_row m r Hreach Hr) as (x & rest & Hrow).
    rewrite getValueAt_run by lia. unfold cell.
    rewrite (Hcells _ _ Hrow).
    rewrite bool_decide_eq_true_2; [done |].
    destruct Hm as [Hn _]. rewrite Hn. unfold len.
    rewrite <- (Z2Nat.id r) at 1 by lia. apply elem_of_range_0.
    rewrite Hn in Hr. unfold len in Hr. lia.
  - apply (getValueAt_frame m m'
             (fun k row =>
                if bool_decide (Z.of_nat k ∈ range 0 (_row_count m))
                then <[0%nat := v]> row else row)).
    + by destruct Hsh as (_ & _ & _ & ?).
    + done.
    + intros k row j Hj. by apply insert_flag_other.
Qed.

(** C5: "Check all rows" makes the flag cell of every row read [True],
    "Uncheck all rows" makes it read [False], whatever it held before; the
    cells of the other columns, the header and the counts are untouched. *)
Theorem check_and_uncheck_all_rows (m : BaseScopeDataModel) :
  reachable m ->
  (exists m', _select_all_menu_pressed m = Ok tt m' /\ all_flags_set (VBool true) m m') /\
  (exists m', _unselect_all_menu_pressed m = Ok tt m' /\ all_flags_set (VBool false) m m').
Proof.
  intros Hm. split; by apply _update_all_rows_spec.
Qed.

Lemma check_and_uncheck_all_rows_witness :
  let m := new_BaseScopeDataModel ["Host"%string] [[VStr "a"]; [VStr "b"]] in
  (exists m', _select_all_menu_pressed m = Ok tt m' /\ all_flags_set (VBool true) m m') /\
  (exists m', _unselect_all_menu_pressed m = Ok tt m' /\ all_flags_set (VBool false) m m').
Proof.
  exact (check_and_uncheck_all_rows
           (new_BaseScopeDataModel ["Host"%string] [[VStr "a"]; [VStr "b"]])
           (reachable_new ["Host"%string] [[VStr "a"]; [VStr "b"]])).
Defined.

(** ** "Invert selection" *)

Lemma toggled_other (row : list value) (j : nat) :
  j <> 0%nat -> toggled row !! j = row !! j.
Proof. intros Hj. destruct row; [done |]. by destruct j. Qed.

Lemma _invert_selection_menu_pressed_spec (m : BaseScopeDataModel) :
  coherent m ->
  exists m',
    _invert_selection_menu_pressed m = Ok tt m' /\ coherent m' /\ same_shape m m' /\
    forall k row, _content m !! k = Some row -> _content m' !! k = Some (toggled row).
Proof.
  intros Hm.
  destruct (invert_loop (length (_content m)) 0 m Hm) as (m' & Hrun & Hm' & Hsh & Hcells);
    [lia |].
  exists m'. split.
  { unfold _invert_selection_menu_pressed. unfold bind at 1. rewrite getRowCount_run.
    destruct Hm as [-> _]. unfold len. by rewrite range_0_nat. }
  split; [done |]. split; [done |].
  intros k row Hrow. rewrite (Hcells _ _ Hrow).
  rewrite bool_decide_eq_true_2; [done |].
  apply lookup_lt_Some in Hrow. lia.
Qed.

(** C6: when the flag cell of every row holds a boolean, running "Invert
    selection" twice gives back the rows the model started with: column 0
    reads as at the start in every row, and so does every other cell. *)
Theorem invert_selection_twice (m : BaseScopeDataModel) :
  reachable m ->
  (forall row, row ∈ _content m -> exists b, row !! 0%nat = Some (VBool b)) ->
  exists m1 m2,
    _invert_selection_menu_pressed m = Ok tt m1 /\
    _invert_selection_menu_pressed m1 = Ok tt m2 /\
    same_shape m m2 /\
    _content m2 = _content m /\
    forall r c, value_of (getValueAt r c m2) = value_of (getValueAt r c m).
Proof.
  intros Hm%reachable_coherent Hbool.
  destruct (_invert_selection_menu_pressed_spec m Hm) as (m1 & Hrun1 & Hm1 & Hsh1 & Hc1).
  destruct (_invert_selection_menu_pressed_spec m1 Hm1) as (m2 & Hrun2 & _ & Hsh2 & Hc2).
  assert (_content m2 = _content m) as Hcontent.
  { apply list_eq. intros k.
    destruct (_content m !! k) as [row |] eqn:Hrow.
    - rewrite (Hc2 k (toggled row)) by by apply Hc1.
      destruct (Hbool row) as [b Hb]; [by eapply list_elem_of_lookup_2 |].
      destruct row as [| x rest]; [done |]. simpl in Hb. injection Hb as ->.
      simpl. unfold py_not. simpl. by rewrite negb_involutive.
    - apply lookup_ge_None in Hrow. apply lookup_ge_None.
      destruct Hsh1 as (_ & _ & _ & Hl1). destruct Hsh2 as (_ & _ & _ & Hl2). lia. }
  exists m1, m2. split; [done |]. split; [done |].
  split; [by eapply same_shape_trans |]. split; [done |].
  intros r c. by apply getValueAt_content.
Qed.

Lemma invert_selection_twice_witness :
  let m := state_of (setValueAt (VBool true) 1 0
             (new_BaseScopeDataModel ["Host"%string] [[VStr "a"]; [VStr "b"]])) in
  exists m1 m2,
    _invert_selection_menu_pressed m = Ok tt m1 /\
    _invert_selection_menu_pressed m1 = Ok tt m2 /\
    same_shape m m2 /\
    _content m2 = _content m /\
    forall r c, value_of (getValueAt r c m2) = value_of (getValueAt r c m).
Proof.
  intros m. apply invert_selection_twice.
  - exact (reachable_call _ (Call_setValueAt (VBool true) 1 0)
             (reachable_new ["Host"%string] [[VStr "a"]; [VStr "b"]])).
  - intros row Hrow. vm_compute in Hrow.
    apply elem_of_cons in Hrow as [-> | Hrow]; [by exists false |].
    apply elem_of_cons in Hrow as [-> | Hrow]; [by exists true |].
    by apply elem_of_nil in Hrow.
Defined.

(** ** "Check all selected rows" *)

Lemma _update_selected_rows_spec (selected : list Z) (to_model : Z -> Z) (v : value)
    (m : BaseScopeDataModel) :
  reachable m ->
  (forall s, s ∈ selected -> 0 <= to_model s < _row_count m) ->
  exists m',
    _update_selected_rows selected to_model v m = Ok tt m' /\
    same_shape m m' /\
    (forall r, 0 <= r < _row_count m ->
       if bool_decide (r ∈ map to_model selected)
       then getValueAt r 0 m' = Ok v m'
       else value_of (getValueAt r 0 m') = value_of (getValueAt r 0 m)) /\
    (forall r c, 0 <= r -> 0 < c ->
       value_of (getValueAt r c m') = value_of (getValueAt r c m)).
Proof.
  intros Hreach Hsel. pose proof (reachable_coherent m Hreach) as Hm.
  destruct (set_flags_loop v (map to_model selected) m Hm)
    as (m' & Hrun & _ & Hsh & Hcells).
  { destruct Hm as [Hn _]. rewrite <- Hn.
    intros k (s & -> & Hs)%list_elem_of_fmap. by apply Hsel. }
  exists m'. split.
  { unfold _update_selected_rows. by rewrite for_map in Hrun. }
  split; [done |]. split.
  - intros r Hr.
    destruct (reachable_row m r Hreach Hr) as (x & rest & Hrow).
    rewrite !getValueAt_value, !getValueAt_run by lia. unfold cell.
    rewrite (Hcells _ _ Hrow), Hrow. rewrite Z2Nat.id by lia.
    by destruct (bool_decide (r ∈ map to_model selected)).
  - apply (getValueAt_frame m m'
             (fun k row =>
                if bool_decide (Z.of_nat k ∈ map to_model selected)
                then <[0%nat := v]> row else row)).
    + by destruct Hsh as (_ & _ & _ & ?).
    + done.
    + intros k row j Hj. by apply insert_flag_other.
Qed.

(** C7: "Check all selected rows", for any selection of view rows and any
    translation of view rows into rows of the model, makes the flag cell
    read [True] in the model rows the selection translates to, and leaves
    the flag cell of every other row and all cells of the other columns as
    they were.  The translation is asked to give rows of the model, as
    [JTable.convertRowIndexToModel] does. *)
Theorem check_selected_rows (selected : list Z) (to_model : Z -> Z)
    (m : BaseScopeDataModel) :
  reachable m ->
  (forall s, s ∈ selected -> 0 <= to_model s < _row_count m) ->
  exists m',
    _select_all_selected_menu_pressed selected to_model m = Ok tt m' /\
    same_shape m m' /\
    (forall r, 0 <= r < _row_count m ->
       if bool_decide (r ∈ map to_model selected)
       then getValueAt r 0 m' = Ok (VBool true) m'
       else value_of (getValueAt r 0 m') = value_of (getValueAt r 0 m)) /\
    (forall r c, 0 <= r -> 0 < c ->
       value_of (getValueAt r c m') = value_of (getValueAt r c m)).
Proof. apply _update_selected_rows_spec. Qed.

Lemma check_selected_rows_witness :
  exists m',
    _select_all_selected_menu_pressed [2; 4] descending five_rows = Ok tt m' /\
    getValueAt 2 0 m' = Ok (VBool true) m' /\
    getValueAt 0 0 m' = Ok (VBool true) m' /\
    value_of (getValueAt 4 0 m') = Val (VBool false) /\
    value_of (getValueAt 1 0 m') = Val (VBool false) /\
    value_of (getValueAt 3 0 m') = Val (VBool false).
Proof.
  destruct (check_selected_rows [2; 4] descending five_rows)
    as (m' & Hrun & _ & Hflags & _).
  - apply reachable_new.
  - intros s Hs. vm_compute.
    apply elem_of_cons in Hs as [-> | Hs]; [split; congruence |].
    apply elem_of_cons in Hs as [-> | Hs]; [split; congruence |].
    by apply elem_of_nil in Hs.
  - exists m'. split; [exact Hrun |].
    assert (forall r, 0 <= r < 5 -> 0 <= r < _row_count five_rows) as Hin
      by (intros r Hr; exact Hr).
    split; [exact (Hflags 2 (Hin 2 ltac:(lia))) |].
    split; [exact (Hflags 0 (Hin 0 ltac:(lia))) |].
    split; [exact (Hflags 4 (Hin 4 ltac:(lia))) |].
    split; [exact (Hflags 1 (Hin 1 ltac:(lia))) |].
    exact (Hflags 3 (Hin 3 ltac:(lia))).
Defined.

(** ** [get_type_at] *)

(** With no rows, [get_type_at] answers the text class.  Otherwise it
    reads the cell of row 0 in the given column and answers the boolean
    class for a boolean, the floating-point class for a float, the integer
    class for an integer, and the text class for a string or any other
    value on which the instance test against [time] answers [False]. *)
Theorem get_type_at_classifies (isinstance_time : value -> result bool)
    (m : BaseScopeDataModel) (c : Z) :
  (_row_count m < 1 -> get_type_at isinstance_time c m = Ok Java.String m) /\
  forall v,
    1 <= _row_count m -> value_of (getValueAt 0 c m) = Val v ->
    match v with
    | VBool _ => get_type_at isinstance_time c m = Ok Java.Boolean m
    | VFloat _ => get_type_at isinstance_time c m = Ok Java.Float m
    | VInt _ => get_type_at isinstance_time c m = Ok Java.Integer m
    | VStr _ | VNone | VOther _ _ =>
        isinstance_time v = Val false ->
        get_type_at isinstance_time c m = Ok Java.String m
    end.
Proof.
  split.
  - intros Hn. unfold get_type_at, bind, gets.
    destruct (Z.geb_spec (_row_count m) 1); [lia | done].
  - intros v Hn Hv. unfold get_type_at, bind, gets.
    destruct (Z.geb_spec (_row_count m) 1); [| lia].
    unfold getValueAt, bind, gets in Hv.
    destruct (py_getitem (_content m) 0) as [row | e]; simpl in *; [| done].
    destruct (py_getitem row c) as [x | e]; simpl in *; [| done].
    injection Hv as ->.
    destruct v; simpl; try done; by intros ->.
Qed.

Lemma get_type_at_classifies_witness :
  let m := new_BaseScopeDataModel ["Host"%string; "Port"%string; "Load"%string]
             [[VStr "a"; VInt 80; VFloat 0.5%float]] in
  let host := fun _ : value => Val false in
  get_type_at host 0 m = Ok Java.Boolean m /\
  get_type_at host 1 m = Ok Java.String m /\
  get_type_at host 2 m = Ok Java.Integer m /\
  get_type_at host 3 m = Ok Java.Float m /\
  get_type_at host 0 blank = Ok Java.String blank.
Proof.
  intros m host.
  assert (1 <= _row_count m) as Hn by (vm_compute; congruence).
  split; [exact (proj2 (get_type_at_classifies host m 0) (VBool false) Hn eq_refl) |].
  split; [exact (proj2 (get_type_at_classifies host m 1) (VStr "a") Hn eq_refl eq_refl) |].
  split; [exact (proj2 (get_type_at_classifies host m 2) (VInt 80) Hn eq_refl) |].
  split; [exact (proj2 (get_type_at_classifies host m 3) (VFloat 0.5%float) Hn eq_refl) |].
  apply (proj1 (get_type_at_classifies host blank 0)). vm_compute. reflexivity.
Defined.

(** The two ways the fourth test can end otherwise: where the host's
    instance test raises, so does [get_type_at]; where it answers [True],
    reading [Date] raises [NameError]. *)
Lemma get_type_at_time_raises (isinstance_time : value -> result bool)
    (m : BaseScopeDataModel) (c : Z) (v : value) (e : exn) :
  1 <= _row_count m -> value_of (getValueAt 0 c m) = Val v ->
  isinstance v bool_ = false -> isinstance v float_ = false -> isinstance v int_ = false ->
  isinstance_time v = Exc e ->
  get_type_at isinstance_time c m = Raise e m.
Proof.
  intros Hn Hv Hb Hf Hi Ht. unfold get_type_at, bind, gets.
  destruct (Z.geb_spec (_row_count m) 1); [| lia].
  unfold getValueAt, bind, gets in Hv.
  destruct (py_getitem (_content m) 0) as [row | e']; simpl in *; [| done].
  destruct (py_getitem row c) as [x | e']; simpl in *; [| done].
  injection Hv as ->. by rewrite Hb, Hf, Hi, Ht.
Qed.

Lemma get_type_at_Date_unbound (isinstance_time : value -> result bool)
    (m : BaseScopeDataModel) (c : Z) (v : value) :
  1 <= _row_count m -> value_of (getValueAt 0 c m) = Val v ->
  isinstance v bool_ = false -> isinstance v float_ = false -> isinstance v int_ = false ->
  isinstance_time v = Val true ->
  get_type_at isinstance_time c m = Raise NameError m.
Proof.
  intros Hn Hv Hb Hf Hi Ht. unfold get_type_at, bind, gets.
  destruct (Z.geb_spec (_row_count m) 1); [| lia].
  unfold getValueAt, bind, gets in Hv.
  destruct (py_getitem (_content m) 0) as [row | e']; simpl in *; [| done].
  destruct (py_getitem row c) as [x | e']; simpl in *; [| done].
  injection Hv as ->. by rewrite Hb, Hf, Hi, Ht.
Qed.

(** For a cell of row 0 that is neither a boolean, a float nor an integer,
    the text class is answered exactly when the instance test against
    [time] answers [False]: there is no other way through the fourth
    test. *)
Lemma get_type_at_text_iff_time_test_false (isinstance_time : value -> result bool)
    (m : BaseScopeDataModel) (c : Z) (v : value) :
  1 <= _row_count m -> value_of (getValueAt 0 c m) = Val v ->
  isinstance v bool_ = false -> isinstance v float_ = false -> isinstance v int_ = false ->
  (get_type_at isinstance_time c m = Ok Java.String m <-> isinstance_time v = Val false).
Proof.
  intros Hn Hv Hb Hf Hi. unfold get_type_at, bind, gets.
  destruct (Z.geb_spec (_row_count m) 1); [| lia].
  unfold getValueAt, bind, gets in Hv.
  destruct (py_getitem (_content m) 0) as [row | e']; simpl in *; [| done].
  destruct (py_getitem row c) as [x | e']; simpl in *; [| done].
  injection Hv as ->. rewrite Hb, Hf, Hi.
  destruct (isinstance_time v) as [[] | e]; unfold lift, ret, raise; simpl;
    split; intros Heq; (done || discriminate Heq).
Qed.


(** ** The metadata queries *)

(** An index below zero that still lies within the header is answered with
    a name, counted from the end of the header, not with [None]. *)
Lemma getColumnName_negative_index :
  let m := new_BaseScopeDataModel ["Host"%string] [] in
  ~ (0 <= -1 < len (_header m)) /\
  getColumnName (-1) m = Ok (Some "Host"%string) m /\
  value_of (getColumnName (-1) m) <> Val None.
Proof.
  intros m. split; [lia |]. split; [reflexivity | discriminate].
Qed.

(** C9, amended: none of [getRowCount], [getColumnCount], [getColumnName]
    raises, for any state and any index.  The counts are the cached ones.
    [getColumnName(i)] is the [i]-th name of the stored header for
    [0 <= i < len(header)]; for [-len(header) <= i < 0] it is the name
    [len(header) + i], as Python counts negative indices from the end; for
    every other index it is [None]. *)
Theorem metadata_queries_never_raise (m : BaseScopeDataModel) (i : Z) :
  getRowCount m = Ok (_row_count m) m /\
  getColumnCount m = Ok (_column_count m) m /\
  exists name : option string,
    getColumnName i m = Ok name m /\
    (0 <= i < len (_header m) ->
       is_Some name /\ name = _header m !! Z.to_nat i) /\
    (- len (_header m) <= i < 0 ->
       is_Some name /\ name = _header m !! Z.to_nat (len (_header m) + i)) /\
    (i < - len (_header m) \/ len (_header m) <= i -> name = None).
Proof.
  split; [done |]. split; [done |].
  eexists. split; [apply getColumnName_run |].
  unfold column_name_of, py_getitem, len.
  split; [| split].
  - intros Hi. rewrite py_index_front by done.
    destruct (Z.ltb_spec i (Z.of_nat (length (_header m)))); [| lia].
    destruct (_header m !! Z.to_nat i) as [name |] eqn:Hname; [by split; eauto |].
    apply lookup_ge_None in Hname. lia.
  - intros Hi. rewrite py_index_back by done.
    destruct (Z.ltb_spec i (Z.of_nat (length (_header m)))); [| lia].
    destruct (_header m !! Z.to_nat (Z.of_nat (length (_header m)) + i))
      as [name |] eqn:Hname; [by split; eauto |].
    apply lookup_ge_None in Hname. lia.
  - intros Hi. rewrite py_index_out by done.
    by destruct (i <? Z.of_nat (length (_header m))).
Qed.

Lemma metadata_queries_never_raise_witness :
  let m := new_BaseScopeDataModel ["Host"%string; "Port"%string] [] in
  getColumnName 2 m = Ok (Some "Port"%string) m /\
  getColumnName (-3) m = Ok (Some "Process"%string) m /\
  getColumnName (-4) m = Ok None m /\
  getColumnName 3 m = Ok None m.
Proof.
  intros m.
  split; [| split; [| split]].
  - destruct (metadata_queries_never_raise m 2) as (_ & _ & name & Hrun & Hfront & _ & _).
    destruct Hfront as [_ ->]; [vm_compute; split; congruence |]. exact Hrun.
  - destruct (metadata_queries_never_raise m (-3)) as (_ & _ & name & Hrun & _ & Hback & _).
    destruct Hback as [_ ->]; [vm_compute; split; congruence |]. exact Hrun.
  - destruct (metadata_queries_never_raise m (-4)) as (_ & _ & name & Hrun & _ & _ & Hout).
    rewrite Hout in Hrun; [exact Hrun | left; vm_compute; reflexivity].
  - destruct (metadata_queries_never_raise m 3) as (_ & _ & name & Hrun & _ & _ & Hout).
    rewrite Hout in Hrun; [exact Hrun | right; vm_compute; congruence].
Defined.

(** ** The shape of the rows *)

(** The rows are stored as they are given, and [set_header] does not touch
    them: a row longer than the header at construction, a header of another
    length, or new rows of another length each leave rows whose number of
    cells is not the column count. *)
Lemma shape_invariant_not_kept :
  ~ shape_invariant (new_BaseScopeDataModel ["Host"%string] [[VStr "a"; VInt 80]]) /\
  (let m := new_BaseScopeDataModel ["Host"%string] [[VStr "a"]] in
   let m' := state_of (set_header ["Host"%string; "Port"%string] m) in
   shape_invariant m /\ ~ shape_invariant m' /\
   ~ Forall (fun row => len row = len (_header m')) (_content m')) /\
  (let m := new_BaseScopeDataModel ["Host"%string] [[VStr "a"]] in
   let m' := state_of (set_content [[VStr "a"; VInt 80]] m) in
   shape_invariant m /\ ~ shape_invariant m').
Proof.
  assert (shape_invariant (new_BaseScopeDataModel ["Host"%string] [[VStr "a"]])) as Hm.
  { split; [by exists ["Host"%string] |]. by repeat constructor. }
  split; [| split].
  - intros [_ Hrows]. inversion Hrows as [| ? ? Hrow _]. vm_compute in Hrow. discriminate Hrow.
  - split; [exact Hm |]. split.
    + intros [(names & Hnames & Hcount) _]. vm_compute in Hnames.
      injection Hnames as <-. vm_compute in Hcount. discriminate Hcount.
    + intros Hrows. inversion Hrows as [| ? ? Hrow _]. vm_compute in Hrow. discriminate Hrow.
  - split; [exact Hm |].
    intros [_ Hrows]. inversion Hrows as [| ? ? Hrow _]. vm_compute in Hrow. discriminate Hrow.
Qed.

Lemma shape_invariant_with_row (s : BaseScopeDataModel) (k j : nat) (row : list value)
    (v : value) (r c : Z) :
  shape_invariant s -> _content s !! k = Some row ->
  shape_invariant (with_row s k (<[j := v]> row) r c).
Proof.
  intros [Hcols Hrows] Hrow. split; [done |]. simpl.
  apply Forall_insert; [done |].
  rewrite Forall_forall in Hrows. unfold len. rewrite length_insert.
  apply Hrows. by eapply list_elem_of_lookup_2.
Qed.

(** C2, amended: the invariant "the column count is one more than the
    number of caller-supplied header names, and every row has that many
    cells" holds after construction when every content row has as many
    cells as the header has names; [setValueAt] keeps it, whatever its
    arguments; [set_content(rows)] keeps it when every new row has
    [column count - 1] cells.  [set_header(columns)] stores
    ["Process"] + columns and leaves the rows as they are. *)
Theorem shape_invariant_kept_where_rows_fit :
  (forall (H : list string) (C : list (list value)),
      Forall (fun item => len item = len H) C ->
      shape_invariant (new_BaseScopeDataModel H C)) /\
  (forall (m : BaseScopeDataModel) (v : value) (r c : Z),
      shape_invariant m -> shape_invariant (state_of (setValueAt v r c m))) /\
  (forall (m : BaseScopeDataModel) (rows : list (list value)),
      shape_invariant m ->
      Forall (fun item => len item = _column_count m - 1) rows ->
      shape_invariant (state_of (set_content rows m))) /\
  (forall (m : BaseScopeDataModel) (columns : list string),
      let m' := state_of (set_header columns m) in
      _header m' = "Process"%string :: columns /\ _content m' = _content m).
Proof.
  split; [| split; [| split]].
  - intros H C HC. rewrite new_BaseScopeDataModel_eq. split; simpl.
    + by exists H.
    + apply Forall_fmap. eapply Forall_impl; [exact HC |].
      intros item Hitem. simpl. unfold len in *. simpl. lia.
  - intros m v r c Hm.
    destruct (setValueAt_cases v r c m) as [[e ->] | (k & j & row & Hrow & _ & ->)];
      simpl; [done |]. by apply shape_invariant_with_row.
  - intros m rows [Hcols _] Hrows. rewrite set_content_run. split; simpl; [done |].
    apply Forall_fmap. eapply Forall_impl; [exact Hrows |].
    intros item Hitem. simpl. unfold len in *. simpl. lia.
  - intros m columns. by rewrite set_header_run.
Qed.

Lemma shape_invariant_kept_where_rows_fit_witness :
  let m := new_BaseScopeDataModel ["Host"%string; "Port"%string] [[VStr "a"; VInt 80]] in
  shape_invariant m /\
  shape_invariant (state_of (setValueAt (VBool true) 0 0 m)) /\
  shape_invariant (state_of (set_content [[VStr "b"; VInt 443]; [VStr "c"; VInt 22]] m)).
Proof.
  intros m.
  destruct shape_invariant_kept_where_rows_fit as (Hnew & Hset & Hcontent & _).
  assert (shape_invariant m) as Hm.
  { apply Hnew. repeat constructor. }
  split; [exact Hm |]. split.
  - apply Hset. exact Hm.
  - apply Hcontent; [exact Hm |]. repeat constructor.
Defined.

(** * Further properties of the model and of the table *)

(** ** Bounds of [setValueAt] and [getValueAt] *)

(** The three ways [setValueAt] can end, by the positions its indices
    denote. *)
Lemma setValueAt_outcome (v : value) (r c : Z) (s : BaseScopeDataModel) :
  match py_index (length (_content s)) r with
  | Some k =>
      match _content s !! k with
      | Some row =>
          match py_index (length row) c with
          | Some j => setValueAt v r c s = Ok tt (with_row s k (<[j := v]> row) r c)
          | None => setValueAt v r c s = Raise IndexError s
          end
      | None => setValueAt v r c s = Raise IndexError s
      end
  | None => setValueAt v r c s = Raise IndexError s
  end.
Proof.
  unfold setValueAt, bind, gets, py_getitem, py_setitem.
  destruct (py_index (length (_content s)) r) as [k |] eqn:Hk; [| done].
  destruct (_content s !! k) as [row |] eqn:Hrow; [| done]. simpl.
  by destruct (py_index (length row) c) as [j |] eqn:Hj.
Qed.

Lemma py_getitem_Val {A : Type} (l : list A) (i : Z) (x : A) :
  py_getitem l i = Val x ->
  exists k, py_index (length l) i = Some k /\ l !! k = Some x.
Proof.
  unfold py_getitem.
  destruct (py_index (length l) i) as [k |]; [| done].
  destruct (l !! k) as [y |] eqn:Hy; [| done].
  intros [= ->]. by exists k.
Qed.

Lemma py_getitem_out {A : Type} (l : list A) (i : Z) :
  i < - len l \/ len l <= i -> py_getitem l i = Exc IndexError.
Proof.
  intros Hi. unfold py_getitem. by rewrite py_index_out.
Qed.

Lemma py_getitem_back {A : Type} (l : list A) (i : Z) :
  - len l <= i < 0 -> py_getitem l i = py_getitem l (len l + i).
Proof.
  intros Hi. unfold py_getitem, len in *.
  rewrite py_index_back by done. by rewrite py_index_front by lia.
Qed.

(** X1: what [setValueAt] has written, [getValueAt] reads back at the same
    indices, negative ones included: whenever [setValueAt(v, r, c)] returns,
    [getValueAt(r, c)] then returns [v]. *)
Theorem setValueAt_then_getValueAt (m m' : BaseScopeDataModel) (v : value) (r c : Z) :
  setValueAt v r c m = Ok tt m' -> getValueAt r c m' = Ok v m'.
Proof.
  intros Hset. pose proof (setValueAt_outcome v r c m) as Hout.
  destruct (py_index (length (_content m)) r) as [k |] eqn:Hk; [| congruence].
  destruct (_content m !! k) as [row |] eqn:Hrow; [| congruence].
  destruct (py_index (length row) c) as [j |] eqn:Hj; [| congruence].
  rewrite Hout in Hset. injection Hset as <-.
  unfold getValueAt, bind, gets, py_getitem. simpl.
  rewrite length_insert, Hk.
  rewrite list_lookup_insert_eq by by eapply lookup_lt_Some. simpl.
  rewrite length_insert, Hj.
  rewrite list_lookup_insert_eq by by eapply py_index_lt. done.
Qed.

Lemma setValueAt_then_getValueAt_witness :
  let m := new_BaseScopeDataModel ["Host"%string] [[VStr "a"]; [VStr "b"]] in
  exists m',
    setValueAt (VBool true) (-1) (-2) m = Ok tt m' /\
    getValueAt (-1) (-2) m' = Ok (VBool true) m'.
Proof.
  intros m.
  assert (exists m', setValueAt (VBool true) (-1) (-2) m = Ok tt m') as [m' Hset].
  { eexists. vm_compute. reflexivity. }
  exists m'. split; [exact Hset |].
  exact (setValueAt_then_getValueAt m m' (VBool true) (-1) (-2) Hset).
Defined.

(** X2: [setValueAt] checks no bounds of its own.  A row index outside
    [-n, n) of the [n] stored rows, or a column index outside [-w, w) of the
    [w] cells of the addressed row, raises [IndexError]; and whenever
    [setValueAt] raises, the error is [IndexError] and the model is exactly
    as before: no cell written, no notification sent. *)
Theorem setValueAt_out_of_range (m : BaseScopeDataModel) (v : value) (r c : Z) :
  (r < - len (_content m) \/ len (_content m) <= r ->
     setValueAt v r c m = Raise IndexError m) /\
  (forall row, py_getitem (_content m) r = Val row ->
     c < - len row \/ len row <= c ->
     setValueAt v r c m = Raise IndexError m) /\
  (forall e m', setValueAt v r c m = Raise e m' -> e = IndexError /\ m' = m).
Proof.
  pose proof (setValueAt_outcome v r c m) as Hout.
  split; [| split].
  - intros Hr. by rewrite py_index_out in Hout.
  - intros row (k & Hk & Hrow)%py_getitem_Val Hc.
    rewrite Hk, Hrow in Hout. by rewrite py_index_out in Hout.
  - intros e m' Hraise.
    destruct (py_index (length (_content m)) r) as [k |];
      [| rewrite Hout in Hraise; by injection Hraise as <- <-].
    destruct (_content m !! k) as [row |];
      [| rewrite Hout in Hraise; by injection Hraise as <- <-].
    destruct (py_index (length row) c) as [j |];
      [| rewrite Hout in Hraise; by injection Hraise as <- <-].
    congruence.
Qed.

Lemma setValueAt_out_of_range_witness :
  let m := new_BaseScopeDataModel ["Host"%string] [[VStr "a"]; [VStr "b"]] in
  setValueAt (VBool true) 2 0 m = Raise IndexError m /\
  setValueAt (VBool true) 1 2 m = Raise IndexError m /\
  setValueAt (VBool true) (-3) 0 m = Raise IndexError m.
Proof.
  intros m.
  destruct (setValueAt_out_of_range m (VBool true) 2 0) as (Hrow & _ & _).
  destruct (setValueAt_out_of_range m (VBool true) 1 2) as (_ & Hcol & _).
  destruct (setValueAt_out_of_range m (VBool true) (-3) 0) as (Hlow & _ & _).
  split; [apply Hrow; right; vm_compute; congruence |].
  split; [apply (Hcol [VBool false; VStr "b"]);
            [reflexivity | right; vm_compute; congruence] |].
  apply Hlow. left. vm_compute. reflexivity.
Defined.

(** X3: [getValueAt] never changes the model.  A row index outside
    [-n, n) of the [n] stored rows raises [IndexError]; a row index in
    [-n, 0) reads the row [n + r], and a column index in [-w, 0) reads the
    cell [w + c] of the [w] cells of the addressed row. *)
Theorem getValueAt_bounds (m : BaseScopeDataModel) (r c : Z) :
  state_of (getValueAt r c m) = m /\
  (r < - len (_content m) \/ len (_content m) <= r ->
     getValueAt r c m = Raise IndexError m) /\
  (- len (_content m) <= r < 0 ->
     getValueAt r c m = getValueAt (len (_content m) + r) c m) /\
  (forall row, py_getitem (_content m) r = Val row ->
     (c < - len row \/ len row <= c -> getValueAt r c m = Raise IndexError m) /\
     (- len row <= c < 0 -> getValueAt r c m = getValueAt r (len row + c) m)).
Proof.
  split; [apply getValueAt_state |].
  unfold getValueAt, bind, gets.
  split; [| split].
  - intros Hr. by rewrite py_getitem_out.
  - intros Hr. by rewrite py_getitem_back.
  - intros row ->. simpl. split.
    + intros Hc. by rewrite py_getitem_out.
    + intros Hc. by rewrite py_getitem_back.
Qed.

Lemma getValueAt_bounds_witness :
  let m := new_BaseScopeDataModel ["Host"%string] [[VStr "a"]; [VStr "b"]] in
  getValueAt 2 0 m = Raise IndexError m /\
  getValueAt (-1) 1 m = getValueAt 1 1 m /\
  getValueAt 0 2 m = Raise IndexError m /\
  getValueAt 0 (-1) m = getValueAt 0 1 m.
Proof.
  intros m.
  destruct (getValueAt_bounds m 2 0) as (_ & Hout & _ & _).
  destruct (getValueAt_bounds m (-1) 1) as (_ & _ & Hback & _).
  destruct (getValueAt_bounds m 0 2) as (_ & _ & _ & Hcol).
  destruct (getValueAt_bounds m 0 (-1)) as (_ & _ & _ & Hcol').
  split; [apply Hout; right; vm_compute; congruence |].
  split; [apply Hback; vm_compute; split; congruence |].
  split.
  - apply (proj1 (Hcol [VBool false; VStr "a"] eq_refl)).
    right. vm_compute. congruence.
  - apply (proj2 (Hcol' [VBool false; VStr "a"] eq_refl)).
    vm_compute. split; congruence.
Defined.

(** ** The selected-rows actions *)

(** X4: "Uncheck all selected rows", for any selection and any translation
    that gives rows of the model, makes the flag cell read [False] in the
    model rows the selection translates to, and leaves the flag cell of
    every other row and all cells of the other columns as they were. *)
Theorem uncheck_selected_rows (selected : list Z) (to_model : Z -> Z)
    (m : BaseScopeDataModel) :
  reachable m ->
  (forall s, s ∈ selected -> 0 <= to_model s < _row_count m) ->
  exists m',
    _unselect_all_selected_menu_pressed selected to_model m = Ok tt m' /\
    same_shape m m' /\
    (forall r, 0 <= r < _row_count m ->
       if bool_decide (r ∈ map to_model selected)
       then getValueAt r 0 m' = Ok (VBool false) m'
       else value_of (getValueAt r 0 m') = value_of (getValueAt r 0 m)) /\
    (forall r c, 0 <= r -> 0 < c ->
       value_of (getValueAt r c m') = value_of (getValueAt r c m)).
Proof.
  intros Hm Hsel. unfold _unselect_all_selected_menu_pressed.
  by apply _update_selected_rows_spec.
Qed.

Lemma uncheck_selected_rows_witness :
  exists m',
    _unselect_all_selected_menu_pressed [0] reversed3 three_checked = Ok tt m' /\
    getValueAt 2 0 m' = Ok (VBool false) m' /\
    value_of (getValueAt 0 0 m') = Val (VBool true) /\
    value_of (getValueAt 1 0 m') = Val (VBool true).
Proof.
  destruct (uncheck_selected_rows [0] reversed3 three_checked)
    as (m' & Hrun & _ & Hflags & _).
  - apply _update_all_rows_reachable, reachable_new.
  - intros s Hs. vm_compute.
    apply elem_of_cons in Hs as [-> | Hs]; [split; congruence |].
    by apply elem_of_nil in Hs.
  - exists m'. split; [exact Hrun |].
    assert (forall r, 0 <= r < 3 -> 0 <= r < _row_count three_checked) as Hin
      by (intros r Hr; exact Hr).
    split; [exact (Hflags 2 (Hin 2 ltac:(lia))) |].
    split; [exact (Hflags 0 (Hin 0 ltac:(lia))) |].
    exact (Hflags 1 (Hin 1 ltac:(lia))).
Defined.

Lemma for_app {X : Type} (xs ys : list X) (body : X -> M unit) (s : BaseScopeDataModel) :
  for_ (xs ++ ys) body s =
  match for_ xs body s with
  | Ok _ s' => for_ ys body s'
  | Raise e s' => Raise e s'
  end.
Proof.
  revert s. induction xs as [| x xs IH]; intros s; [done |].
  simpl. unfold bind. destruct (body x s) as [[] s' | e s']; [apply IH | done].
Qed.

(** X5: the selected-rows actions do not undo anything on an error.  When
    the selection translates to rows of the model up to some view row whose
    translation lies outside [-n, n) for the [n] rows, the action raises
    [IndexError] at that row, and the model is left as the action on the
    rows before it leaves it: their flags are written, the rows after it
    are not visited. *)
Theorem _update_selected_rows_stops_at_bad_row (before after : list Z) (bad : Z)
    (to_model : Z -> Z) (v : value) (m : BaseScopeDataModel) :
  reachable m ->
  (forall s, s ∈ before -> 0 <= to_model s < _row_count m) ->
  to_model bad < - _row_count m \/ _row_count m <= to_model bad ->
  exists m',
    _update_selected_rows before to_model v m = Ok tt m' /\
    _update_selected_rows (before ++ bad :: after) to_model v m = Raise IndexError m'.
Proof.
  intros Hreach Hbefore Hbad.
  destruct (_update_selected_rows_spec before to_model v m Hreach Hbefore)
    as (m' & Hrun & (_ & _ & _ & Hlen) & _).
  exists m'. split; [done |].
  unfold _update_selected_rows in *. rewrite for_app, Hrun. simpl. unfold bind.
  pose proof (setValueAt_outcome v (to_model bad) 0 m') as Hout.
  rewrite py_index_out in Hout; [by rewrite Hout |].
  destruct (reachable_coherent m Hreach) as [Hn _].
  rewrite Hlen. rewrite Hn in Hbad. exact Hbad.
Qed.

Lemma _update_selected_rows_stops_at_bad_row_witness :
  exists m',
    _update_selected_rows [0] reversed3 (VBool false) three_checked = Ok tt m' /\
    _update_selected_rows ([0] ++ 7 :: [1]) reversed3 (VBool false) three_checked
    = Raise IndexError m' /\
    getValueAt 2 0 m' = Ok (VBool false) m' /\
    getValueAt 1 0 m' = Ok (VBool true) m'.
Proof.
  destruct (_update_selected_rows_stops_at_bad_row [0] [1] 7 reversed3 (VBool false)
              three_checked) as (m' & Hrun & Hraise).
  - apply _update_all_rows_reachable, reachable_new.
  - intros s Hs. vm_compute.
    apply elem_of_cons in Hs as [-> | Hs]; [split; congruence |].
    by apply elem_of_nil in Hs.
  - left. vm_compute. reflexivity.
  - exists m'. split; [exact Hrun |]. split; [exact Hraise |].
    vm_compute in Hrun. injection Hrun as <-. split; reflexivity.
Defined.

(** ** Notifications of the bulk actions *)

Lemma for_setValueAt_fired (v : value) (ks : list Z) (s s' : BaseScopeDataModel) :
  for_ ks (fun i => setValueAt v i 0) s = Ok tt s' ->
  fired s' = fired s ++ map (fun k => TableCellUpdated k 0) ks.
Proof.
  revert s. induction ks as [| k ks IH]; intros s Hrun.
  - injection Hrun as <-. by rewrite app_nil_r.
  - simpl in Hrun. unfold bind in Hrun.
    destruct (setValueAt_cases v k 0 s) as [[e He] | (i & j & row & _ & _ & Hset)].
    + by rewrite He in Hrun.
    + rewrite Hset in Hrun. apply IH in Hrun. rewrite Hrun. simpl.
      by rewrite <- app_assoc.
Qed.

(** X6: "Check all rows" and "Uncheck all rows" send one cell-updated
    notification for column 0 of each row, in the order of the rows in the
    model, and no other notification. *)
Theorem _update_all_rows_notifications (v : value) (m : BaseScopeDataModel) :
  reachable m ->
  exists m',
    _update_all_rows v m = Ok tt m' /\
    fired m' = fired m ++ map (fun i => TableCellUpdated i 0) (range 0 (_row_count m)).
Proof.
  intros Hreach.
  destruct (_update_all_rows_spec v m Hreach) as (m' & Hrun & _).
  exists m'. split; [done |].
  unfold _update_all_rows, bind in Hrun. rewrite getRowCount_run in Hrun.
  by apply for_setValueAt_fired in Hrun.
Qed.

Lemma _update_all_rows_notifications_witness :
  let m := new_BaseScopeDataModel ["Host"%string] [[VStr "a"]; [VStr "b"]] in
  exists m',
    _update_all_rows (VBool true) m = Ok tt m' /\
    fired m' = [TableStructureChanged; TableRowsInserted 0 1;
                TableCellUpdated 0 0; TableCellUpdated 1 0].
Proof.
  exact (_update_all_rows_notifications (VBool true)
           (new_BaseScopeDataModel ["Host"%string] [[VStr "a"]; [VStr "b"]])
           (reachable_new ["Host"%string] [[VStr "a"]; [VStr "b"]])).
Defined.

(** X7: the selected-rows actions send one cell-updated notification per
    selected view row, in the order of the selection, each naming the
    model row the view row translates to and column 0; a model row the
    selection reaches twice is notified twice. *)
Theorem _update_selected_rows_notifications (selected : list Z) (to_model : Z -> Z)
    (v : value) (m : BaseScopeDataModel) :
  reachable m ->
  (forall s, s ∈ selected -> 0 <= to_model s < _row_count m) ->
  exists m',
    _update_selected_rows selected to_model v m = Ok tt m' /\
    fired m' = fired m ++ map (fun s => TableCellUpdated (to_model s) 0) selected.
Proof.
  intros Hreach Hsel.
  destruct (_update_selected_rows_spec selected to_model v m Hreach Hsel)
    as (m' & Hrun & _).
  exists m'. split; [done |].
  unfold _update_selected_rows in Hrun. cbv zeta in Hrun.
  rewrite <- (for_map to_model selected (fun i => setValueAt v i 0)) in Hrun.
  apply for_setValueAt_fired in Hrun. rewrite Hrun. by rewrite map_map.
Qed.

Lemma _update_selected_rows_notifications_witness :
  exists m',
    _update_selected_rows [2; 4] descending (VBool true) five_rows = Ok tt m' /\
    fired m' = fired five_rows ++ [TableCellUpdated 2 0; TableCellUpdated 0 0].
Proof.
  apply (_update_selected_rows_notifications [2; 4] descending (VBool true) five_rows).
  - apply reachable_new.
  - intros s Hs. vm_compute.
    apply elem_of_cons in Hs as [-> | Hs]; [split; congruence |].
    apply elem_of_cons in Hs as [-> | Hs]; [split; congruence |].
    by apply elem_of_nil in Hs.
Defined.

(** ** "Invert selection" on flags of any kind *)

Lemma flag_cell (s : BaseScopeDataModel) (r : Z) (x : value) :
  0 <= r -> value_of (getValueAt r 0 s) = Val x ->
  exists rest, _content s !! Z.to_nat r = Some (x :: rest).
Proof.
  intros Hr. rewrite getValueAt_value by lia. unfold cell.
  destruct (_content s !! Z.to_nat r) as [[| y rest] |]; simpl; try done.
  intros [= ->]. by exists rest.
Qed.

Lemma getValueAt_flag (s : BaseScopeDataModel) (r : Z) (x : value) (rest : list value) :
  0 <= r -> _content s !! Z.to_nat r = Some (x :: rest) -> getValueAt r 0 s = Ok x s.
Proof.
  intros Hr Hrow. rewrite getValueAt_run by lia. unfold cell. by rewrite Hrow.
Qed.

(** X8: "Invert selection" returns in every reachable state, whatever the
    flag cells hold: the flag of each row becomes the boolean [not value]
    of what it held, so afterwards every flag is a boolean; the cells of
    the other columns, the header and the counts are as before. *)
Theorem invert_selection_negates (m : BaseScopeDataModel) :
  reachable m ->
  exists m',
    _invert_selection_menu_pressed m = Ok tt m' /\
    same_shape m m' /\
    (forall r x, 0 <= r -> value_of (getValueAt r 0 m) = Val x ->
       getValueAt r 0 m' = Ok (VBool (negb (truthy x))) m') /\
    (forall r c, 0 <= r -> 0 < c ->
       value_of (getValueAt r c m') = value_of (getValueAt r c m)).
Proof.
  intros Hm%reachable_coherent.
  destruct (_invert_selection_menu_pressed_spec m Hm) as (m' & Hrun & _ & Hsh & Hrows).
  exists m'. split; [done |]. split; [done |]. split.
  - intros r x Hr Hx. destruct (flag_cell m r x Hr Hx) as [rest Hrow].
    apply (getValueAt_flag m' r _ rest Hr). by rewrite (Hrows _ _ Hrow).
  - apply (getValueAt_frame m m' (fun _ row => toggled row)).
    + by destruct Hsh as (_ & _ & _ & ?).
    + done.
    + intros _ row j Hj. by apply toggled_other.
Qed.

Lemma odd_flags_reachable : reachable odd_flags.
Proof.
  exact (reachable_call _ (Call_setValueAt VNone 2 0)
          (reachable_call _ (Call_setValueAt (VStr "x") 1 0)
            (reachable_call _ (Call_setValueAt (VInt 0) 0 0)
              (reachable_new ["Host"%string] [[VStr "a"]; [VStr "b"]; [VStr "c"]])))).
Defined.

Lemma invert_selection_negates_witness :
  exists m',
    _invert_selection_menu_pressed odd_flags = Ok tt m' /\
    getValueAt 0 0 m' = Ok (VBool true) m' /\
    getValueAt 1 0 m' = Ok (VBool false) m' /\
    getValueAt 2 0 m' = Ok (VBool true) m'.
Proof.
  destruct (invert_selection_negates odd_flags odd_flags_reachable)
    as (m' & Hrun & _ & Hflags & _).
  exists m'. split; [exact Hrun |].
  split; [exact (Hflags 0 (VInt 0) ltac:(lia) ltac:(vm_compute; reflexivity)) |].
  split; [exact (Hflags 1 (VStr "x") ltac:(lia) ltac:(vm_compute; reflexivity)) |].
  exact (Hflags 2 VNone ltac:(lia) ltac:(vm_compute; reflexivity)).
Defined.

(** X9: two runs of "Invert selection" do not give back a flag that was
    not a boolean: after the second run the flag of each row is the
    boolean truth value of what it held at the start.  The other cells are
    as at the start. *)
Theorem invert_selection_twice_gives_truth_value (m : BaseScopeDataModel) :
  reachable m ->
  exists m1 m2,
    _invert_selection_menu_pressed m = Ok tt m1 /\
    _invert_selection_menu_pressed m1 = Ok tt m2 /\
    (forall r x, 0 <= r -> value_of (getValueAt r 0 m) = Val x ->
       getValueAt r 0 m2 = Ok (VBool (truthy x)) m2) /\
    (forall r c, 0 <= r -> 0 < c ->
       value_of (getValueAt r c m2) = value_of (getValueAt r c m)).
Proof.
  intros Hm%reachable_coherent.
  destruct (_invert_selection_menu_pressed_spec m Hm) as (m1 & Hrun1 & Hm1 & Hsh1 & Hr1).
  destruct (_invert_selection_menu_pressed_spec m1 Hm1) as (m2 & Hrun2 & _ & Hsh2 & Hr2).
  exists m1, m2. split; [done |]. split; [done |]. split.
  - intros r x Hr Hx. destruct (flag_cell m r x Hr Hx) as [rest Hrow].
    apply (getValueAt_flag m2 r _ rest Hr).
    rewrite (Hr2 _ _ (Hr1 _ _ Hrow)). simpl. unfold py_not. simpl.
    by rewrite negb_involutive.
  - apply (getValueAt_frame m m2 (fun _ row => toggled (toggled row))).
    + destruct Hsh1 as (_ & _ & _ & ?). destruct Hsh2 as (_ & _ & _ & ?). congruence.
    + intros k row Hrow. by apply Hr2, Hr1.
    + intros _ row j Hj. by rewrite !toggled_other.
Qed.

Lemma invert_selection_twice_gives_truth_value_witness :
  exists m1 m2,
    _invert_selection_menu_pressed odd_flags = Ok tt m1 /\
    _invert_selection_menu_pressed m1 = Ok tt m2 /\
    getValueAt 0 0 m2 = Ok (VBool false) m2 /\
    getValueAt 1 0 m2 = Ok (VBool true) m2 /\
    value_of (getValueAt 1 0 odd_flags) = Val (VStr "x").
Proof.
  destruct (invert_selection_twice_gives_truth_value odd_flags odd_flags_reachable)
    as (m1 & m2 & Hrun1 & Hrun2 & Hflags & _).
  exists m1, m2. split; [exact Hrun1 |]. split; [exact Hrun2 |].
  split; [exact (Hflags 0 (VInt 0) ltac:(lia) ltac:(vm_compute; reflexivity)) |].
  split; [exact (Hflags 1 (VStr "x") ltac:(lia) ltac:(vm_compute; reflexivity)) |].
  reflexivity.
Defined.

(** ** Bulk writes one after the other *)

Lemma _update_all_rows_content (v : value) (m : BaseScopeDataModel) :
  reachable m ->
  exists m',
    _update_all_rows v m = Ok tt m' /\
    _content m' = map (fun row => <[0%nat := v]> row) (_content m).
Proof.
  intros Hreach. pose proof (reachable_coherent m Hreach) as Hm.
  destruct (set_flags_loop v (range 0 (_row_count m)) m Hm) as (m' & Hrun & _ & Hsh & Hcells).
  { destruct Hm as [Hn _]. rewrite Hn. unfold len.
    intros k Hk. rewrite range_0_nat in Hk.
    apply list_elem_of_In, in_map_iff in Hk as (j & <- & Hin).
    apply in_seq in Hin. lia. }
  exists m'. split.
  { unfold _update_all_rows, bind. by rewrite getRowCount_run. }
  apply list_eq. intros k. rewrite list_lookup_fmap.
  destruct (_content m !! k) as [row |] eqn:Hrow; simpl.
  - rewrite (Hcells _ _ Hrow). rewrite bool_decide_eq_true_2; [done |].
    destruct Hm as [-> _]. apply elem_of_range_0. by eapply lookup_lt_Some.
  - apply lookup_ge_None in Hrow. apply lookup_ge_None.
    destruct Hsh as (_ & _ & _ & Hlen). lia.
Qed.

(** X10: of two bulk writes in a row the last one decides: "Check all
    rows" followed by "Uncheck all rows" (or any two such passes) leaves
    the rows the second pass alone would leave; a pass run twice leaves
    the rows one run leaves. *)
Theorem _update_all_rows_last_wins (v1 v2 : value) (m : BaseScopeDataModel) :
  reachable m ->
  exists m1 m12 m2,
    _update_all_rows v1 m = Ok tt m1 /\
    _update_all_rows v2 m1 = Ok tt m12 /\
    _update_all_rows v2 m = Ok tt m2 /\
    _content m12 = _content m2.
Proof.
  intros Hm.
  destruct (_update_all_rows_content v1 m Hm) as (m1 & Hrun1 & Hc1).
  assert (reachable m1) as Hm1.
  { pose proof (_update_all_rows_reachable v1 m Hm) as H. by rewrite Hrun1 in H. }
  destruct (_update_all_rows_content v2 m1 Hm1) as (m12 & Hrun12 & Hc12).
  destruct (_update_all_rows_content v2 m Hm) as (m2 & Hrun2 & Hc2).
  exists m1, m12, m2. repeat (split; [done |]).
  rewrite Hc12, Hc1, Hc2, map_map. apply map_ext. intros row.
  apply list_insert_insert_eq.
Qed.

Lemma _update_all_rows_last_wins_witness :
  let m := new_BaseScopeDataModel ["Host"%string] [[VStr "a"]; [VStr "b"]] in
  exists m1 m12 m2,
    _select_all_menu_pressed m = Ok tt m1 /\
    _unselect_all_menu_pressed m1 = Ok tt m12 /\
    _unselect_all_menu_pressed m = Ok tt m2 /\
    _content m12 = _content m2.
Proof.
  exact (_update_all_rows_last_wins (VBool true) (VBool false)
           (new_BaseScopeDataModel ["Host"%string] [[VStr "a"]; [VStr "b"]])
           (reachable_new ["Host"%string] [[VStr "a"]; [VStr "b"]])).
Defined.

(** ** The column type *)

Lemma py_getitem_0_insert {A : Type} (l : list A) (k : nat) (x : A) :
  k <> 0%nat -> py_getitem (<[k := x]> l) 0 = py_getitem l 0.
Proof.
  intros Hk. unfold py_getitem. rewrite length_insert.
  destruct (py_index (length l) 0) as [k0 |] eqn:Hk0; [| done].
  assert (k0 = 0%nat) as ->.
  { unfold py_index in Hk0. simpl in Hk0.
    destruct (0 <? Z.of_nat (length l)); [| done]. by injection Hk0 as <-. }
  by rewrite list_lookup_insert_ne.
Qed.

(** [get_type_at] looks at the cached row count and at row 0 only. *)
Lemma get_type_at_ext (isinstance_time : value -> result bool) (c : Z)
    (s s' : BaseScopeDataModel) :
  _row_count s = _row_count s' ->
  py_getitem (_content s) 0 = py_getitem (_content s') 0 ->
  value_of (get_type_at isinstance_time c s) =
  value_of (get_type_at isinstance_time c s').
Proof.
  intros Hn Hrow0. unfold get_type_at, bind, gets. cbv beta iota zeta.
  rewrite Hn.
  destruct (_row_count s' >=? 1); [| done].
  cbv beta iota. rewrite Hrow0.
  destruct (py_getitem (_content s') 0) as [row0 | e]; simpl; [| done].
  destruct (py_getitem row0 c) as [x | e]; simpl; [| done].
  destruct x; simpl; try done; by destruct (isinstance_time _) as [[] | e].
Qed.

(** X11: the type of a column is read off row 0 alone.  A write into any
    row below it, whatever the value and the column, leaves the answer of
    [get_type_at] for every column as it was. *)
Theorem get_type_at_reads_row_0_only (isinstance_time : value -> result bool)
    (m m' : BaseScopeDataModel) (v : value) (r c column_index : Z) :
  0 < r -> setValueAt v r c m = Ok tt m' ->
  value_of (get_type_at isinstance_time column_index m') =
  value_of (get_type_at isinstance_time column_index m).
Proof.
  intros Hr Hset. pose proof (setValueAt_outcome v r c m) as Hout.
  destruct (py_index (length (_content m)) r) as [k |] eqn:Hk; [| congruence].
  destruct (_content m !! k) as [row |] eqn:Hrow; [| congruence].
  destruct (py_index (length row) c) as [j |] eqn:Hj; [| congruence].
  rewrite Hout in Hset. injection Hset as <-.
  assert (k <> 0%nat) as Hk0.
  { unfold py_index in Hk. destruct (Z.leb_spec 0 r); [| lia].
    destruct (r <? Z.of_nat (length (_content m))); [| done].
    injection Hk as <-. lia. }
  apply get_type_at_ext; [done |].
  unfold with_row. cbn [_content]. by apply py_getitem_0_insert.
Qed.

Lemma get_type_at_reads_row_0_only_witness :
  let m := new_BaseScopeDataModel ["Port"%string] [[VInt 80]; [VInt 443]] in
  let host := fun _ : value => Val false in
  exists m',
    setValueAt (VStr "none") 1 1 m = Ok tt m' /\
    value_of (get_type_at host 1 m') = Val Java.Integer.
Proof.
  intros m host.
  assert (exists m', setValueAt (VStr "none") 1 1 m = Ok tt m') as [m' Hset].
  { eexists. vm_compute. reflexivity. }
  exists m'. split; [exact Hset |].
  rewrite (get_type_at_reads_row_0_only host m m' (VStr "none") 1 1 1 ltac:(lia) Hset).
  vm_compute. reflexivity.
Defined.

Lemma get_type_at_flag (isinstance_time : value -> result bool)
    (s : BaseScopeDataModel) (b : bool) (rest : list value) :
  1 <= _row_count s -> py_getitem (_content s) 0 = Val (VBool b :: rest) ->
  get_type_at isinstance_time 0 s = Ok Java.Boolean s.
Proof.
  intros Hn Hrow0. unfold get_type_at, bind, gets. cbv beta iota zeta.
  destruct (Z.geb_spec (_row_count s) 1); [| lia].
  cbv beta iota. rewrite Hrow0. reflexivity.
Qed.

(** X12: once rows are stored, the "Process" column is typed as the
    boolean class, whatever the host's instance test: after a construction
    with rows and after [set_content] with rows, [get_type_at(0)] answers
    the boolean class. *)
Theorem process_column_is_boolean (isinstance_time : value -> result bool)
    (header : list string) (rows : list (list value)) (m : BaseScopeDataModel) :
  rows <> [] ->
  value_of (get_type_at isinstance_time 0 (new_BaseScopeDataModel header rows))
  = Val Java.Boolean /\
  value_of (get_type_at isinstance_time 0 (state_of (set_content rows m)))
  = Val Java.Boolean.
Proof.
  intros Hrows. destruct rows as [| item rows]; [done |].
  rewrite new_BaseScopeDataModel_eq, set_content_run.
  assert (1 <= len (item :: rows)) as Hn by (unfold len; simpl; lia).
  split; by rewrite (get_type_at_flag _ _ false item).
Qed.

Lemma process_column_is_boolean_witness :
  value_of (get_type_at (fun _ => Exc TypeError) 0
              (new_BaseScopeDataModel ["Host"%string] [[VStr "a"]]))
  = Val Java.Boolean /\
  value_of (get_type_at (fun _ => Exc TypeError) 0
              (state_of (set_content [[VStr "a"]] blank)))
  = Val Java.Boolean.
Proof.
  apply process_column_is_boolean. discriminate.
Defined.

(** X13: [get_type_at] checks the column index against nothing but row 0:
    with at least one row, a column index outside [-w, w) of the [w] cells
    of row 0 raises [IndexError] and leaves the model as it was. *)
Theorem get_type_at_column_out_of_range (isinstance_time : value -> result bool)
    (m : BaseScopeDataModel) (row0 : list value) (c : Z) :
  1 <= _row_count m ->
  _content m !! 0%nat = Some row0 ->
  c < - len row0 \/ len row0 <= c ->
  get_type_at isinstance_time c m = Raise IndexError m.
Proof.
  intros Hn Hrow0 Hc. unfold get_type_at, bind, gets.
  destruct (Z.geb_spec (_row_count m) 1); [| lia].
  rewrite (py_getitem_front _ 0 row0) by done. simpl.
  by rewrite py_getitem_out.
Qed.

Lemma get_type_at_column_out_of_range_witness :
  let m := new_BaseScopeDataModel ["Host"%string] [[VStr "a"]] in
  get_type_at (fun _ => Val false) 2 m = Raise IndexError m.
Proof.
  intros m.
  apply (get_type_at_column_out_of_range (fun _ => Val false) m [VBool false; VStr "a"]).
  - vm_compute. congruence.
  - reflexivity.
  - right. vm_compute. congruence.
Defined.

(** ** [set_model], [set_header] and the notifications of a reset *)

(** X14: [set_model(header, rows)] replaces header and rows whatever the
    model held: the header is ["Process"] + header, the rows are the given
    ones with a [False] flag in front, the row count is their number, and
    the notifications sent are one structural change followed by one
    rows-inserted when there are rows.  The column count it leaves is
    [len(header)], one less than the stored header has names, so the
    invariant of the data model never holds after [set_model]. *)
Theorem set_model_effect (header : list string) (rows : list (list value))
    (m : BaseScopeDataModel) :
  exists m',
    set_model header rows m = Ok tt m' /\
    _header m' = "Process"%string :: header /\
    _content m' = map flagged rows /\
    getRowCount m' = Ok (len rows) m' /\
    getColumnCount m' = Ok (len header) m' /\
    fired m' = fired m ++ TableStructureChanged ::
                 match rows with
                 | [] => []
                 | _ :: _ => [TableRowsInserted 0 (len rows - 1)]
                 end /\
    ~ shape_invariant m'.
Proof.
  eexists. split.
  { unfold set_model, bind. rewrite set_header_run. apply set_content_run. }
  simpl. repeat (split; [done |]). split.
  - rewrite <- app_assoc. simpl. f_equal. f_equal. unfold rows_inserted.
    destruct rows as [| item rows]; [done |].
    destruct (Z.gtb_spec (len (item :: rows)) 0) as [_ | Hle]; [done |].
    unfold len in Hle. simpl in Hle. lia.
  - intros [(names & Hnames & Hcount) _]. simpl in *.
    injection Hnames as <-. lia.
Qed.

(** X15: [set_header(columns)] answers [getColumnName(0)] with "Process"
    and [getColumnName(i + 1)] with [columns[i]] for every position [i] of
    [columns]; with [getColumnCount] at [len(columns)], the last of these
    names sits at the index [getColumnCount()] itself. *)
Theorem set_header_names (columns : list string) (m : BaseScopeDataModel) :
  exists m',
    set_header columns m = Ok tt m' /\
    getColumnName 0 m' = Ok (Some "Process"%string) m' /\
    forall i name, 0 <= i -> columns !! Z.to_nat i = Some name ->
      getColumnName (i + 1) m' = Ok (Some name) m' /\
      i + 1 <= _column_count m'.
Proof.
  eexists. split; [apply set_header_run |]. split.
  - rewrite getColumnName_run. simpl. unfold column_name_of.
    destruct (Z.ltb_spec 0 (len ("Process"%string :: columns))) as [_ | Hge];
      [done |]. unfold len in Hge. simpl in Hge. lia.
  - intros i name Hi Hname. pose proof (lookup_lt_Some _ _ _ Hname) as Hlt.
    split; [| simpl; unfold len; lia].
    rewrite getColumnName_run. simpl. unfold column_name_of.
    destruct (Z.ltb_spec (i + 1) (len ("Process"%string :: columns))) as [_ | Hge];
      cycle 1.
    { unfold len in Hge. simpl in Hge. lia. }
    rewrite (py_getitem_front _ _ name); [done | lia |].
    replace (Z.to_nat (i + 1)) with (S (Z.to_nat i)) by lia. done.
Qed.

Lemma set_header_names_witness :
  exists m',
    set_header ["Host"%string; "Port"%string] blank = Ok tt m' /\
    getColumnName (1 + 1) m' = Ok (Some "Port"%string) m' /\
    getColumnCount m' = Ok 2 m'.
Proof.
  destruct (set_header_names ["Host"%string; "Port"%string] blank)
    as (m' & Hrun & _ & Hnames).
  exists m'. split; [exact Hrun |].
  split; [exact (proj1 (Hnames 1 "Port"%string ltac:(lia) eq_refl)) |].
  vm_compute in Hrun. injection Hrun as <-. reflexivity.
Defined.

(** X16: [set_content] sends no structural change and nothing for the rows
    it drops: with no new rows it sends nothing at all and leaves the
    model empty, with rows it sends the one rows-inserted for the range
    [0 .. n - 1].  A construction sends a structural change first, and the
    rows-inserted only when there are rows. *)
Theorem reset_notifications (header : list string) (rows : list (list value))
    (m : BaseScopeDataModel) :
  fired (state_of (set_content rows m)) =
    fired m ++ match rows with
               | [] => []
               | _ :: _ => [TableRowsInserted 0 (len rows - 1)]
               end /\
  fired (new_BaseScopeDataModel header rows) =
    TableStructureChanged ::
      match rows with
      | [] => []
      | _ :: _ => [TableRowsInserted 0 (len rows - 1)]
      end /\
  _content (state_of (set_content [] m)) = [] /\
  getRowCount (state_of (set_content [] m)) = Ok 0 (state_of (set_content [] m)).
Proof.
  rewrite new_BaseScopeDataModel_eq, !set_content_run. simpl.
  assert (rows_inserted (len rows) =
          match rows with
          | [] => []
          | _ :: _ => [TableRowsInserted 0 (len rows - 1)]
          end) as ->.
  { unfold rows_inserted. destruct rows as [| item rows]; [done |].
    destruct (Z.gtb_spec (len (item :: rows)) 0) as [_ | Hle]; [done |].
    unfold len in Hle. simpl in Hle. lia. }
  done.
Qed.

(** ** The row count in every reachable state *)

(** X17: in every state a model can reach, after calls that returned and
    calls that raised alike, [getRowCount] is the number of stored rows and
    every row has its flag cell: [getValueAt(r, 0)] returns for each
    [0 <= r < getRowCount()]. *)
Theorem row_count_is_number_of_rows (m : BaseScopeDataModel) :
  reachable m ->
  getRowCount m = Ok (len (_content m)) m /\
  forall r, 0 <= r < len (_content m) -> exists x, getValueAt r 0 m = Ok x m.
Proof.
  intros Hreach. pose proof (reachable_coherent m Hreach) as [Hn _].
  split; [rewrite getRowCount_run; congruence |].
  intros r Hr. rewrite <- Hn in Hr.
  destruct (reachable_row m r Hreach Hr) as (x & rest & Hrow).
  exists x. apply (getValueAt_flag m r x rest); [lia | done].
Qed.

Lemma row_count_is_number_of_rows_witness :
  let m := state_of (run_call (Call_setValueAt (VBool true) 5 0)
             (state_of (run_call (Call_set_content [[VStr "a"]; []])
                (new_BaseScopeDataModel ["Host"%string] [])))) in
  getRowCount m = Ok 2 m /\ exists x, getValueAt 1 0 m = Ok x m.
Proof.
  intros m.
  destruct (row_count_is_number_of_rows m) as [Hcount Hflag].
  - exact (reachable_call _ (Call_setValueAt (VBool true) 5 0)
            (reachable_call _ (Call_set_content [[VStr "a"]; []])
              (reachable_new ["Host"%string] []))).
  - split; [exact Hcount |]. apply Hflag. vm_compute. split; congruence.
Defined.
